(** * The clip-extraction route handler ([POST /api/clip])

    A shallow embedding of the route handler of the repository: the request
    validator [validateBody] and the handler [POST], which resolves one
    encoding of a remote video, pipes it through a transcoder that cuts the
    requested time window into a temporary file, and answers with the bytes
    of that file.

    The handler is written against collaborators whose code is outside the
    repository: the JSON body reader, the [ytdl-core] package, the
    [fluent-ffmpeg] process wrapper, the file system and the random
    identifier source.  They are taken as an explicit environment [Env];
    the calls the handler makes to them are listed in order, and the
    file system is a finite map from paths to contents. *)

From Stdlib Require Import ZArith List String Ascii Bool Lia.
From Stdlib.Strings Require Import Byte.
From Stdlib Require Import SpecFloat Sorted DecimalString.
From stdpp Require Import base option gmap strings.

Open Scope string_scope.
Open Scope Z_scope.

(** ** JavaScript numbers

    A JavaScript number is an IEEE 754 binary64 value: [spec_float] with a
    53-bit significand and exponent bound 1024. *)

Module JS.

Abbreviation number := spec_float (only parsing).

Definition prec : Z := 53.
Definition emax : Z := 1024.

(** The number denoted by an integer literal. *)
Definition of_Z (z : Z) : number := binary_normalize prec emax z 0 false.

(** The literal [0.01]: the nearest binary64 value, 0x1.47ae147ae147bp-7. *)
Definition lit_0_01 : number := S754_finite false 5764607523034235 (-59).

Definition NaN : number := S754_nan.
Definition Infinity : number := S754_infinity false.

(** [a - b] and [a <= b] on numbers. *)
Definition sub (a b : number) : number := SFsub prec emax a b.
Definition leb (a b : number) : bool := SFleb a b.
Definition ltb (a b : number) : bool := SFltb a b.

Definition is_nan (x : number) : bool :=
  match x with S754_nan => true | _ => false end.

Definition is_finite (x : number) : bool :=
  match x with S754_zero _ | S754_finite _ _ _ => true | _ => false end.

(** [Math.max(a, b)]: NaN if either argument is NaN, otherwise the larger
    one, with +0 counted larger than -0. *)
Definition Math_max (a b : number) : number :=
  match SFcompare a b with
  | None => S754_nan
  | Some Lt => b
  | Some Gt => a
  | Some Eq =>
      match a, b with
      | S754_zero true, S754_zero _ => b
      | _, _ => a
      end
  end.

(** [Math.floor(x)]: the greatest integral number not above [x]; NaN, the
    infinities and the zeros are returned unchanged.  A finite
    [(-1)^s * m * 2^e] with [e < 0] has integer part [m / 2^(-e)]. *)
Definition Math_floor (x : number) : number :=
  match x with
  | S754_finite s m e =>
      if 0 <=? e then x
      else
        let q := Z.shiftr (Zpos m) (- e) in
        let exact := Z.shiftl q (- e) =? Zpos m in
        if s then binary_normalize prec emax (- (if exact then q else q + 1)) 0 true
        else binary_normalize prec emax q 0 false
  | _ => x
  end.

(** The integer a finite integral number stands for. *)
Definition to_integer (x : number) : option Z :=
  match x with
  | S754_zero _ => Some 0
  | S754_finite s m e =>
      if 0 <=? e then Some (cond_Zopp s (Z.shiftl (Zpos m) e))
      else
        let q := Z.shiftr (Zpos m) (- e) in
        if Z.shiftl q (- e) =? Zpos m then Some (cond_Zopp s q) else None
  | _ => None
  end.

(** *** Values read from a parsed JSON body *)

Inductive value :=
  | Undefined
  | Null
  | Boolean (b : bool)
  | Number (x : number)
  | Str (s : string)
  | Object.

Definition typeof (v : value) : string :=
  match v with
  | Undefined => "undefined"
  | Null => "object"
  | Boolean _ => "boolean"
  | Number _ => "number"
  | Str _ => "string"
  | Object => "object"
  end.

(** ToBoolean. *)
Definition truthy (v : value) : bool :=
  match v with
  | Undefined | Null => false
  | Boolean b => b
  | Number (S754_zero _) | Number S754_nan => false
  | Number _ => true
  | Str s => negb (String.eqb s "")
  | Object => true
  end.

(** The number, or string, held by a value that a [typeof] test has narrowed
    to that type (the non-null assertions [start!], [end!], [url!]). *)
Definition the_number (v : value) : number :=
  match v with Number x => x | _ => S754_nan end.

Definition the_string (v : value) : string :=
  match v with Str s => s | _ => "" end.

(** *** Thrown values and completions *)

(** What a [throw] carries: an [Error] object with its name and message, or
    some other value, of which only its [String(...)] rendering matters. *)
Inductive thrown :=
  | ErrorObject (name message : string)
  | OtherValue (rendering : string).

Definition Error (message : string) : thrown := ErrorObject "Error" message.
Definition TypeError (message : string) : thrown := ErrorObject "TypeError" message.

(** The outcome of a promise or of a call that may throw. *)
Inductive result (A : Type) :=
  | Fulfilled (a : A)
  | Rejected (e : thrown).
Arguments Fulfilled {A} a.
Arguments Rejected {A} e.

End JS.

(** ** The collaborators' data

    The part of the [ytdl-core] and [fluent-ffmpeg] interfaces the handler
    touches. *)

Module Ytdl.

(** One entry of [info.formats]: the fields the handler and the format
    selection read.  [url] is absent when the package could not produce a
    stream locator. *)
Record videoFormat := {
  itag : Z;
  url : option string;
  container : string;
  hasVideo : bool;
  hasAudio : bool;
  isHLS : bool;
  isDashMPD : bool;
  isLive : bool;
}.

Record videoInfo := { formats : list videoFormat }.

(** The [filter] and [quality] options, in the forms the handler passes:
    the filter name ["audioandvideo"] or a predicate, and the quality name
    ["highest"] or an itag number. *)
Inductive Filter :=
  | audioandvideo
  | FilterFn (keep : videoFormat -> bool).

Inductive Quality :=
  | highest
  | QualityItag (tag : Z).

(** The options object given to [chooseFormat] and [downloadFromInfo]. *)
Record options := {
  filter : option Filter;
  quality : option Quality;
  highWaterMark : option Z;
}.

(** The readable stream [downloadFromInfo] hands back. *)
Record Readable := {
  chunks : list byte;
  failure : option JS.thrown;
}.

(** [!format.url]: the locator is absent or empty. *)
Definition url_falsy (f : videoFormat) : bool :=
  match url f with
  | Some s => String.eqb s ""
  | None => true
  end.

End Ytdl.

Module Ffmpeg.

(** A configured command: [ffmpeg(input).inputOptions(..).outputOptions(..)
    .format(..).save(output)]. *)
Record command := {
  input : Ytdl.Readable;
  inputOptions : list string;
  outputOptions : list string;
  format : string;
  output : string;
}.

(** One run of the transcoding process: what it leaves at the output path
    (nothing, or a complete or partial file) and how it ends: the [end]
    event, or the [error] event with its error. *)
Record run := {
  leaves : option (list byte);
  settles : JS.result unit;
}.

(** The value given to [flag] in a list of alternating flags and values. *)
Fixpoint arg_after (flag : string) (args : list string) : option string :=
  match args with
  | a :: v :: rest => if String.eqb a flag then Some v else arg_after flag rest
  | _ => None
  end.

End Ffmpeg.

(** ** Requests and responses *)

(** [type Body]: the four properties read off the parsed JSON.  A missing
    property is [Undefined]; a JSON value that is not an object has all
    four missing. *)
Record Body := {
  url : JS.value;
  start : JS.value;
  end_ : JS.value;
  format : JS.value;
}.

(** What [req.json()] resolves to: [null] or something with properties. *)
Inductive Json :=
  | JsonNull
  | JsonProps (body : Body).

Record NextRequest := { json : JS.result Json }.

Inductive BodyInit :=
  | Text (message : string)
  | Bytes (data : list byte).

Record Response := {
  payload : BodyInit;
  status : Z;
  headers : list (string * string);
}.

(** ** The environment, the world and the calls *)

Record Env := {
  randomUUID : string;
  ffmpegStatic : option string;
  getInfo : string -> JS.result Ytdl.videoInfo;
  chooseFormat : list Ytdl.videoFormat -> Ytdl.options -> JS.result (option Ytdl.videoFormat);
  downloadFromInfo : Ytdl.videoInfo -> Ytdl.options -> JS.result Ytdl.Readable;
  ffmpeg_run : Ffmpeg.command -> Ffmpeg.run;
  unlink_removes : string -> bool;
}.

Inductive Call :=
  | CallJson
  | CallRandomUUID
  | CallSetFfmpegPath (path : string)
  | CallGetInfo (url : string)
  | CallChooseFormat (formats : list Ytdl.videoFormat) (opts : Ytdl.options)
  | CallDownloadFromInfo (info : Ytdl.videoInfo) (opts : Ytdl.options)
  | CallFfmpeg (cmd : Ffmpeg.command)
  | CallReadFile (path : string)
  | CallUnlink (path : string).

Record World := {
  files : gmap string (list byte);
  ffmpegPath : option string;
}.

Definition with_files (fs : gmap string (list byte)) (w : World) : World :=
  {| files := fs; ffmpegPath := ffmpegPath w |}.

Definition with_ffmpegPath (p : string) (w : World) : World :=
  {| files := files w; ffmpegPath := Some p |}.

(** ** Handler computations

    A statement of the handler's [try] block either completes normally,
    throws, or returns a response from the function; it changes the world
    and makes calls, listed in the order they are made. *)

Inductive completion (A : Type) :=
  | Normal (a : A)
  | Throw (e : JS.thrown)
  | Return (r : Response).
Arguments Normal {A} a.
Arguments Throw {A} e.
Arguments Return {A} r.

Definition M (A : Type) : Type := World -> completion A * World * list Call.

Definition ret {A} (a : A) : M A := fun w => (Normal a, w, []).

Definition bind {A B} (m : M A) (k : A -> M B) : M B :=
  fun w =>
    match m w with
    | (Normal a, w1, cs1) =>
        match k a w1 with
        | (c, w2, cs2) => (c, w2, (cs1 ++ cs2)%list)
        end
    | (Throw e, w1, cs1) => (Throw e, w1, cs1)
    | (Return r, w1, cs1) => (Return r, w1, cs1)
    end.

Definition return_ {A} (r : Response) : M A := fun w => (Return r, w, []).

Definition settle {A} (r : JS.result A) : completion A :=
  match r with
  | JS.Fulfilled a => Normal a
  | JS.Rejected e => Throw e
  end.

(** Make a call to a collaborator and complete with its outcome. *)
Definition call {A} (c : Call) (r : JS.result A) : M A :=
  fun w => (settle r, w, [c]).

(** A call to a function of the file itself. *)
Definition lift {A} (r : JS.result A) : M A :=
  fun w => (settle r, w, []).

Notation "x <- m ;; k" := (bind m (fun x => k))
  (at level 100, m at next level, right associativity).
Notation "m ;; k" := (bind m (fun _ => k))
  (at level 100, right associativity).

(** ** The handler *)

Definition dquote : string := String "034"%char EmptyString.

(** [path.join(dir, name)] for a [name] that is a single path segment. *)
Definition path_join (dir name : string) : string := dir +:+ "/" +:+ name.

(** [fs.readFile(path)]: the contents, or the rejection for a missing file. *)
Definition readFile (path : string) : M (list byte) :=
  fun w =>
    match files w !! path with
    | Some data => (Normal data, w, [CallReadFile path])
    | None =>
        (Throw (JS.Error ("ENOENT: no such file or directory, open '" +:+ path +:+ "'")),
         w, [CallReadFile path])
    end.

(** [fs.unlink(path).catch(() => {})]: the removal is started and not
    awaited, and a failure of it is swallowed.  The statement completes
    normally either way; the world is the one left once the removal has
    settled: without the file when the file system carried the removal out
    ([unlink_removes]), unchanged when it refused. *)
Definition unlink (env : Env) (path : string) : M unit :=
  fun w =>
    (Normal tt,
     if unlink_removes env path then with_files (delete path (files w)) w else w,
     [CallUnlink path]).

(** [ffmpeg.setFfmpegPath(path)]. *)
Definition setFfmpegPath (path : string) : M unit :=
  fun w => (Normal tt, with_ffmpegPath path w, [CallSetFfmpegPath path]).

(** The promise around the transcoder run: the process writes what it writes
    to the output path, then the promise resolves on [end] and rejects with
    the error on [error]. *)
Definition run_ffmpeg (env : Env) (cmd : Ffmpeg.command) : M unit :=
  fun w =>
    let r := ffmpeg_run env cmd in
    let w' :=
      match Ffmpeg.leaves r with
      | Some data => with_files (<[Ffmpeg.output cmd := data]> (files w)) w
      | None => w
      end in
    (settle (Ffmpeg.settles r), w', [CallFfmpeg cmd]).

(** The filter of the first [chooseFormat] call:
    [f.container === "mp4" && !!f.hasVideo && !!f.hasAudio &&
     !!f.isHLS === false && !!f.isDashMPD === false]. *)
Definition progressive_mp4 (f : Ytdl.videoFormat) : bool :=
  String.eqb (Ytdl.container f) "mp4"
  && Ytdl.hasVideo f && Ytdl.hasAudio f
  && Bool.eqb (Ytdl.isHLS f) false && Bool.eqb (Ytdl.isDashMPD f) false.

Definition preferred_options : Ytdl.options :=
  {| Ytdl.filter := Some (Ytdl.FilterFn progressive_mp4);
     Ytdl.quality := Some Ytdl.highest;
     Ytdl.highWaterMark := None |}.

Definition fallback_options : Ytdl.options :=
  {| Ytdl.filter := None;
     Ytdl.quality := Some Ytdl.highest;
     Ytdl.highWaterMark := None |}.

Definition download_options (f : Ytdl.videoFormat) : Ytdl.options :=
  {| Ytdl.filter := Some Ytdl.audioandvideo;
     Ytdl.quality := Some (Ytdl.QualityItag (Ytdl.itag f));
     Ytdl.highWaterMark := Some (Z.shiftl 1 25) |}.

(** [ytdl.chooseFormat(info.formats, {filter, quality: "highest"}) ||
     ytdl.chooseFormat(info.formats, {quality: "highest"})]: the second call
    is made only when the first one returns a falsy value. *)
Definition select_format (env : Env) (formats : list Ytdl.videoFormat)
  : M (option Ytdl.videoFormat) :=
  first <- call (CallChooseFormat formats preferred_options)
                (chooseFormat env formats preferred_options);;
  match first with
  | Some f => ret (Some f)
  | None =>
      call (CallChooseFormat formats fallback_options)
           (chooseFormat env formats fallback_options)
  end.

Definition no_format_response : Response :=
  {| payload := Text "Failed to get a downloadable format";
     status := 400;
     headers := [] |}.

(** What one invocation of the handler amounts to. *)
Record Served := {
  response : Response;
  world : World;
  calls : list Call;
}.

Section Handler.

(** [String(x)] and [`${x}`] for a number [x]: the built-in conversion of a
    number to its decimal rendering. *)
Variable Number_toString : JS.number -> string.

Definition validateBody (body : Json) : JS.result unit :=
  match body with
  | JsonNull =>
      JS.Rejected (JS.TypeError "Cannot read properties of null (reading 'url')")
  | JsonProps b =>
      if negb (JS.truthy (url b)) || negb (String.eqb (JS.typeof (url b)) "string") then
        JS.Rejected (JS.Error "Missing url")
      else if negb (String.eqb (JS.typeof (start b)) "number")
              || negb (String.eqb (JS.typeof (end_ b)) "number") then
        JS.Rejected (JS.Error "Missing start/end")
      else if JS.leb (JS.the_number (end_ b)) (JS.the_number (start b)) then
        JS.Rejected (JS.Error "end must be greater than start")
      else JS.Fulfilled tt
  end.

(** The option list given to [outputOptions]. *)
Definition output_options (start duration : JS.number) : list string :=
  [ "-ss"; Number_toString start;
    "-t"; Number_toString duration;
    "-c:v"; "libx264";
    "-preset"; "veryfast";
    "-crf"; "23";
    "-c:a"; "aac";
    "-movflags"; "+faststart" ].

Definition clip_command (readStream : Ytdl.Readable) (start duration : JS.number)
    (outFile : string) : Ffmpeg.command :=
  {| Ffmpeg.input := readStream;
     Ffmpeg.inputOptions := [];
     Ffmpeg.outputOptions := output_options start duration;
     Ffmpeg.format := "mp4";
     Ffmpeg.output := outFile |}.

Definition clip_response (data : list byte) (start end' : JS.number) : Response :=
  {| payload := Bytes data;
     status := 200;
     headers :=
       [ ("Content-Type", "video/mp4");
         ("Content-Disposition",
          "attachment; filename=" +:+ dquote +:+ "clip_"
            +:+ Number_toString (JS.Math_floor start) +:+ "-"
            +:+ Number_toString (JS.Math_floor end') +:+ ".mp4" +:+ dquote);
         ("Cache-Control", "no-store") ] |}.

(** The body of the [try] block of [POST]. *)
Definition POST_try (env : Env) (req : NextRequest) : M Response :=
  body <- call CallJson (json req);;
  lift (validateBody body);;
  match body with
  | JsonNull =>
      lift (JS.Rejected
              (JS.TypeError "Cannot destructure property 'url' of 'body' as it is null."))
  | JsonProps b =>
      let url := JS.the_string (url b) in
      let start := JS.the_number (start b) in
      let end' := JS.the_number (end_ b) in
      let duration := JS.Math_max JS.lit_0_01 (JS.sub end' start) in
      id <- call CallRandomUUID (JS.Fulfilled (randomUUID env));;
      let outFile := path_join "/tmp" ("clip_" +:+ id +:+ ".mp4") in
      match ffmpegStatic env with
      | Some p => if String.eqb p "" then ret tt else setFfmpegPath p
      | None => ret tt
      end;;
      info <- call (CallGetInfo url) (getInfo env url);;
      format <- select_format env (Ytdl.formats info);;
      match format with
      | None => return_ no_format_response
      | Some f =>
          if Ytdl.url_falsy f then return_ no_format_response
          else
            readStream <- call (CallDownloadFromInfo info (download_options f))
                               (downloadFromInfo env info (download_options f));;
            run_ffmpeg env (clip_command readStream start duration outFile);;
            data <- readFile outFile;;
            unlink env outFile;;
            ret (clip_response data start end')
      end
  end.

(** [err?.message || String(err)]. *)
Definition error_text (err : JS.thrown) : string :=
  match err with
  | JS.ErrorObject name message =>
      if String.eqb message "" then name else message
  | JS.OtherValue rendering => rendering
  end.

Definition error_response (err : JS.thrown) : Response :=
  {| payload := Text (error_text err); status := 500; headers := [] |}.

(** [export async function POST(req)]: the response, the world it leaves
    and the calls it made. *)
Definition POST (env : Env) (req : NextRequest) (w : World) : Served :=
  match POST_try env req w with
  | (Normal r, w', cs) => {| response := r; world := w'; calls := cs |}
  | (Return r, w', cs) => {| response := r; world := w'; calls := cs |}
  | (Throw err, w', cs) => {| response := error_response err; world := w'; calls := cs |}
  end.

End Handler.

(** The path of the temporary artifact of a request served under [env]. *)
Definition artifact_path (env : Env) : string :=
  path_join "/tmp" ("clip_" +:+ randomUUID env +:+ ".mp4").

(** [!format || !format.url]. *)
Definition unusable (sel : option Ytdl.videoFormat) : bool :=
  match sel with
  | Some f => Ytdl.url_falsy f
  | None => true
  end.

(** The handler's own format check fires: the request is valid, its
    manifest is fetched, and format selection completes with no format or
    with one that has no locator. *)
Definition no_usable_format (env : Env) (req : NextRequest) : Prop :=
  exists b info sel,
    json req = JS.Fulfilled (JsonProps b) /\
    validateBody (JsonProps b) = JS.Fulfilled tt /\
    getInfo env (JS.the_string (url b)) = JS.Fulfilled info /\
    (forall w, fst (fst (select_format env (Ytdl.formats info) w)) = Normal sel) /\
    unusable sel = true.

(** The messages of the errors [validateBody] throws. *)
Definition validation_messages : list string :=
  ["Missing url"; "Missing start/end"; "end must be greater than start"].

(** The three ways a body can be invalid: no usable url, a bound that is not
    a number, or a window with [end <= start]. *)
Definition lacks_url (b : Body) : Prop :=
  forall u, url b = JS.Str u -> u = "".

Definition lacks_bounds (b : Body) : Prop :=
  (forall s, start b <> JS.Number s) \/ (forall e, end_ b <> JS.Number e).

Definition empty_window (b : Body) : Prop :=
  exists s e, start b = JS.Number s /\ end_ b = JS.Number e /\ JS.leb e s = true.

(** ** Format selection of the [ytdl-core] package

    [ytdl.chooseFormat] belongs to the imported package, not to the
    repository.  This is its published behaviour ([lib/format-utils.js] of
    ytdl-core 4): the formats are filtered, keeping only entries with a
    locator; when an HLS entry is present the live non-HLS entries are
    dropped; quality ["highest"] takes the first entry of what is left,
    because [getInfo] delivers [info.formats] sorted best first; and the
    call throws when nothing is left to take. *)

Module YtdlCore.

Definition filterFormats (formats : list Ytdl.videoFormat) (filter : Ytdl.Filter)
  : list Ytdl.videoFormat :=
  let fn :=
    match filter with
    | Ytdl.audioandvideo => fun f => Ytdl.hasVideo f && Ytdl.hasAudio f
    | Ytdl.FilterFn keep => keep
    end in
  List.filter (fun f => negb (Ytdl.url_falsy f) && fn f) formats.

Definition quality_name (q : Ytdl.Quality) : string :=
  match q with
  | Ytdl.highest => "highest"
  | Ytdl.QualityItag tag => NilZero.string_of_int (Z.to_int tag)
  end.

Definition chooseFormat (formats : list Ytdl.videoFormat) (opts : Ytdl.options)
  : JS.result (option Ytdl.videoFormat) :=
  let formats :=
    match Ytdl.filter opts with
    | Some filter => filterFormats formats filter
    | None => formats
    end in
  let formats :=
    if existsb Ytdl.isHLS formats
    then List.filter (fun f => Ytdl.isHLS f || negb (Ytdl.isLive f)) formats
    else formats in
  let quality := default Ytdl.highest (Ytdl.quality opts) in
  let format :=
    match quality with
    | Ytdl.highest => head formats
    | Ytdl.QualityItag tag => List.find (fun f => Ytdl.itag f =? tag) formats
    end in
  match format with
  | Some f => JS.Fulfilled (Some f)
  | None => JS.Rejected (JS.Error ("No such format found: " +:+ quality_name quality))
  end.

End YtdlCore.

(** A manifest is sorted best first with respect to a quality rank. *)
Definition best_first (rank : Ytdl.videoFormat -> nat) (formats : list Ytdl.videoFormat)
  : Prop :=
  StronglySorted (fun a b => (rank b <= rank a)%nat) formats.

(** The entries the handler's first [chooseFormat] call can return: those
    that carry a stream locator and pass the handler's filter. *)
Definition located_progressive_mp4 (f : Ytdl.videoFormat) : bool :=
  negb (Ytdl.url_falsy f) && progressive_mp4 f.

(** ** Sample requests, manifests and environments *)

(** The number-to-string conversion on the values whose rendering needs no
    shortest-digits search: NaN, the infinities, the zeros and the integers
    of magnitude at most 2^53.  Elsewhere it yields the empty string; the
    samples below stay inside that range. *)
Definition integral_toString (x : JS.number) : string :=
  match x with
  | S754_nan => "NaN"
  | S754_infinity false => "Infinity"
  | S754_infinity true => "-Infinity"
  | _ =>
      match JS.to_integer x with
      | Some z =>
          if Z.abs z <=? 2 ^ 53 then NilZero.string_of_int (Z.to_int z) else ""
      | None => ""
      end
  end.

Definition request_of (b : Body) : NextRequest :=
  {| json := JS.Fulfilled (JsonProps b) |}.

Definition clip_body (u s e fmt : JS.value) : Body :=
  {| url := u; start := s; end_ := e; format := fmt |}.

Definition watch_url : string := "https://www.youtube.com/watch?v=aqz-KE-bpKQ".

Definition sample_format (tag : Z) (cont : string) (video audio : bool) : Ytdl.videoFormat :=
  {| Ytdl.itag := tag;
     Ytdl.url := Some ("https://rr1.googlevideo.com/videoplayback?itag="
                       +:+ NilZero.string_of_int (Z.to_int tag));
     Ytdl.container := cont;
     Ytdl.hasVideo := video;
     Ytdl.hasAudio := audio;
     Ytdl.isHLS := false;
     Ytdl.isDashMPD := false;
     Ytdl.isLive := false |}.

Definition mp4_1080p_video_only := sample_format 137 "mp4" true false.
Definition webm_1080p_video_only := sample_format 248 "webm" true false.
Definition mp4_720p := sample_format 22 "mp4" true true.
Definition mp4_360p := sample_format 18 "mp4" true true.
Definition webm_360p := sample_format 43 "webm" true true.
Definition webm_audio_only := sample_format 251 "webm" false true.

Definition mixed_manifest : list Ytdl.videoFormat :=
  [mp4_1080p_video_only; webm_1080p_video_only; mp4_720p; mp4_360p; webm_audio_only].

(** The 720p entry as a manifest has it when no stream locator could be
    worked out for it. *)
Definition mp4_720p_unlocated : Ytdl.videoFormat :=
  {| Ytdl.itag := 22;
     Ytdl.url := None;
     Ytdl.container := "mp4";
     Ytdl.hasVideo := true;
     Ytdl.hasAudio := true;
     Ytdl.isHLS := false;
     Ytdl.isDashMPD := false;
     Ytdl.isLive := false |}.

(** Sorted best first; the best progressive mp4 entry has no locator. *)
Definition unlocated_first_manifest : list Ytdl.videoFormat :=
  [mp4_720p_unlocated; mp4_360p].

(** The only progressive mp4 entry has no locator. *)
Definition unlocated_manifest : list Ytdl.videoFormat :=
  [mp4_720p_unlocated; webm_360p].

(** The two progressive mp4 entries, worst first. *)
Definition worst_first_manifest : list Ytdl.videoFormat :=
  [mp4_360p; mp4_720p].

(** A manifest with no mp4 entry; its best entry is a progressive webm. *)
Definition webm_manifest : list Ytdl.videoFormat :=
  [webm_360p; webm_audio_only].

(** The rank behind the order of [mixed_manifest]. *)
Definition sample_rank (f : Ytdl.videoFormat) : nat :=
  if Ytdl.itag f =? 137 then 5
  else if Ytdl.itag f =? 248 then 4
  else if Ytdl.itag f =? 22 then 3
  else if Ytdl.itag f =? 18 then 2
  else 1.

Definition sample_stream : Ytdl.Readable :=
  {| Ytdl.chunks := [x00; x00; x00; x18; x66; x74; x79; x70]; Ytdl.failure := None |}.

Definition clip_bytes : list byte := [x00; x00; x00; x20; x66; x74; x79; x70; x69; x73; x6f; x6d].
Definition partial_bytes : list byte := [x00; x00; x00; x20; x66; x74].

Definition sample_ffmpeg : string := "/var/task/node_modules/ffmpeg-static/ffmpeg".

Definition transcoder_ok (_ : Ffmpeg.command) : Ffmpeg.run :=
  {| Ffmpeg.leaves := Some clip_bytes; Ffmpeg.settles := JS.Fulfilled tt |}.

(** A transcoder that starts writing its output and then exits non-zero. *)
Definition transcoder_crash (_ : Ffmpeg.command) : Ffmpeg.run :=
  {| Ffmpeg.leaves := Some partial_bytes;
     Ffmpeg.settles := JS.Rejected (JS.Error "ffmpeg exited with code 1: Conversion failed!") |}.

Definition sample_env (manifest : list Ytdl.videoFormat)
    (transcoder : Ffmpeg.command -> Ffmpeg.run) : Env :=
  {| randomUUID := "9b2f6c1e-4d3a-4f7b-8a51-0c6e2d9f1a77";
     ffmpegStatic := Some sample_ffmpeg;
     getInfo := fun _ => JS.Fulfilled {| Ytdl.formats := manifest |};
     chooseFormat := YtdlCore.chooseFormat;
     downloadFromInfo := fun _ _ => JS.Fulfilled sample_stream;
     ffmpeg_run := transcoder;
     unlink_removes := fun _ => true |}.

(** The same environment on a file system that refuses removals. *)
Definition refusing_removal (env : Env) : Env :=
  {| randomUUID := randomUUID env;
     ffmpegStatic := ffmpegStatic env;
     getInfo := getInfo env;
     chooseFormat := chooseFormat env;
     downloadFromInfo := downloadFromInfo env;
     ffmpeg_run := ffmpeg_run env;
     unlink_removes := fun _ => false |}.

Definition sample_outFile : string := "/tmp/clip_9b2f6c1e-4d3a-4f7b-8a51-0c6e2d9f1a77.mp4".

(** [{url, start: 10, end: 15, format: "mp4"}] *)
Definition sample_body : Body :=
  clip_body (JS.Str watch_url) (JS.Number (JS.of_Z 10)) (JS.Number (JS.of_Z 15)) (JS.Str "mp4").

(** [{url, start: 20, end: 20}] *)
Definition zero_length_body : Body :=
  clip_body (JS.Str watch_url) (JS.Number (JS.of_Z 20)) (JS.Number (JS.of_Z 20)) JS.Undefined.

(** [{url, start: -5, end: 3}] *)
Definition negative_start_body : Body :=
  clip_body (JS.Str watch_url) (JS.Number (JS.of_Z (-5))) (JS.Number (JS.of_Z 3)) JS.Undefined.

(** [{url, start: 0, end: 1e999}]: the JSON literal [1e999] parses to
    [Infinity]. *)
Definition unbounded_body : Body :=
  clip_body (JS.Str watch_url) (JS.Number (JS.of_Z 0)) (JS.Number JS.Infinity) JS.Undefined.

(** [{url, start: 10, end: 15}], the same request without a format field. *)
Definition sample_body_without_format : Body :=
  clip_body (JS.Str watch_url) (JS.Number (JS.of_Z 10)) (JS.Number (JS.of_Z 15)) JS.Undefined.

Definition fresh_world : World := {| files := ∅; ffmpegPath := None |}.

(** ** Reading an invocation *)

(** The body carries a url the handler accepts: a non-empty string. *)
Definition has_url (b : Body) : Prop :=
  exists u, url b = JS.Str u /\ u <> "".

(** The kinds of calls, for counting them. *)
Definition is_manifest_fetch (c : Call) : bool :=
  match c with CallGetInfo _ => true | _ => false end.

Definition is_selection (c : Call) : bool :=
  match c with CallChooseFormat _ _ => true | _ => false end.

Definition is_stream_open (c : Call) : bool :=
  match c with CallDownloadFromInfo _ _ => true | _ => false end.

Definition is_transcode (c : Call) : bool :=
  match c with CallFfmpeg _ => true | _ => false end.

Definition is_artifact_read (c : Call) : bool :=
  match c with CallReadFile _ => true | _ => false end.

Definition is_artifact_removal (c : Call) : bool :=
  match c with CallUnlink _ => true | _ => false end.

Definition how_many (kind : Call -> bool) (cs : list Call) : nat :=
  length (List.filter kind cs).

(** * The page

    The client component of the repository: it turns what the user pastes
    into a video id, lets the user mark a start and an end on the player,
    keeps the list of clips, and posts a clip to the handler. *)

(** ** String methods the page uses

    Strings are read as sequences of code units. *)

Module Str.

(** [s.slice(1)]. *)
Definition slice1 (s : string) : string :=
  match s with
  | String _ rest => rest
  | EmptyString => EmptyString
  end.

(** [s.startsWith(p)]. *)
Definition startsWith (s p : string) : bool := String.prefix p s.

(** [s.includes(sub)]. *)
Fixpoint includes (s sub : string) : bool :=
  String.prefix sub s
  || match s with
     | String _ rest => includes rest sub
     | EmptyString => false
     end.

(** [s.split(sep)] for a separator of one code unit. *)
Fixpoint split (sep : ascii) (s : string) : list string :=
  match s with
  | EmptyString => [EmptyString]
  | String c rest =>
      if Ascii.eqb c sep then EmptyString :: split sep rest
      else
        match split sep rest with
        | piece :: pieces => String c piece :: pieces
        | [] => [String c EmptyString]
        end
  end.

(** A string is truthy when it is not empty. *)
Definition truthy (s : string) : bool := negb (String.eqb s "").

(** [parts.indexOf(x)], with [None] for [-1]. *)
Fixpoint indexOf (x : string) (parts : list string) : option nat :=
  match parts with
  | [] => None
  | p :: rest =>
      if String.eqb p x then Some 0%nat
      else option_map S (indexOf x rest)
  end.

(** The character class [[a-zA-Z0-9_-]]. *)
Definition id_char (c : ascii) : bool :=
  let n := nat_of_ascii c in
  ((97 <=? n) && (n <=? 122))%nat
  || ((65 <=? n) && (n <=? 90))%nat
  || ((48 <=? n) && (n <=? 57))%nat
  || (n =? 95)%nat || (n =? 45)%nat.

(** [/^[a-zA-Z0-9_-]{11}$/.test(s)]. *)
Definition is_raw_id (s : string) : bool :=
  (String.length s =? 11)%nat && forallb id_char (list_ascii_of_string s).

End Str.

(** What [new URL(input)] exposes to the page. *)
Record URL := {
  hostname : string;
  pathname : string;
  searchParams : list (string * string);
}.

(** [url.searchParams.get(name)]: the first value under [name]. *)
Fixpoint searchParams_get (name : string) (params : list (string * string))
  : option string :=
  match params with
  | [] => None
  | (k, v) :: rest => if String.eqb k name then Some v else searchParams_get name rest
  end.

Definition slash : ascii := "/"%char.

(** [x || null] for a possibly missing string [x]. *)
Definition or_null (x : option string) : option string :=
  match x with
  | Some s => if Str.truthy s then Some s else None
  | None => None
  end.

Module Status.
Inductive t := idle | downloading | done | error.
End Status.

Module Clip.
(** [type Clip]. *)
Record t := {
  id : string;
  start : JS.number;
  end_ : JS.number;
  status : option Status.t;
  url : option string;
  error : option string;
}.
End Clip.

(** The state of the page that its handlers read and write. *)
Record PageState := {
  inputUrl : string;
  videoId : option string;
  clips : list Clip.t;
  draftStart : option JS.number;
  draftEnd : option JS.number;
}.

(** What [Number(playerRef.current.getCurrentTime())] comes to: there is no
    player or it has no such function, the call throws, or it yields a
    number. *)
Inductive TimeRead :=
  | NoPlayer
  | ReadThrows
  | ReadGives (x : JS.number).

(** The object given to [JSON.stringify] by [downloadClip]. *)
Record Posted := {
  posted_url : string;
  posted_start : JS.number;
  posted_end : JS.number;
  posted_format : string;
}.

(** What [fetch] resolves to: the status, and what [res.text()] and
    [res.blob()] resolve to. *)
Record Answer := {
  answer_status : Z;
  answer_text : JS.result string;
  answer_blob : JS.result (list byte);
}.

Inductive Effect :=
  | Alert (message : string)
  | Fetch (body : Posted)
  | Download (href name : string).

(** [res.ok]. *)
Definition ok (res : Answer) : bool :=
  (200 <=? answer_status res) && (answer_status res <=? 299).

(** A number after [JSON.stringify] and [JSON.parse]: NaN and the infinities
    are written as [null], minus zero as [0], and every other number comes
    back as it was. *)
Definition JSON_number (x : JS.number) : JS.value :=
  match x with
  | S754_nan | S754_infinity _ => JS.Null
  | S754_zero _ => JS.Number (S754_zero false)
  | S754_finite _ _ _ => JS.Number x
  end.

(** What [req.json()] makes of the posted object. *)
Definition received (p : Posted) : Json :=
  JsonProps {| url := JS.Str (posted_url p);
               start := JSON_number (posted_start p);
               end_ := JSON_number (posted_end p);
               format := JS.Str (posted_format p) |}.

Definition with_clips (cs : list Clip.t) (st : PageState) : PageState :=
  {| inputUrl := inputUrl st; videoId := videoId st; clips := cs;
     draftStart := draftStart st; draftEnd := draftEnd st |}.

(** The three updates [downloadClip] makes to the clips with the id of its
    clip. *)
Definition mark_downloading (id : string) (c : Clip.t) : Clip.t :=
  if String.eqb (Clip.id c) id then
    {| Clip.id := Clip.id c; Clip.start := Clip.start c; Clip.end_ := Clip.end_ c;
       Clip.status := Some Status.downloading; Clip.url := Clip.url c;
       Clip.error := None |}
  else c.

Definition mark_done (id blobUrl : string) (c : Clip.t) : Clip.t :=
  if String.eqb (Clip.id c) id then
    {| Clip.id := Clip.id c; Clip.start := Clip.start c; Clip.end_ := Clip.end_ c;
       Clip.status := Some Status.done; Clip.url := Some blobUrl;
       Clip.error := Clip.error c |}
  else c.

Definition mark_error (id message : string) (c : Clip.t) : Clip.t :=
  if String.eqb (Clip.id c) id then
    {| Clip.id := Clip.id c; Clip.start := Clip.start c; Clip.end_ := Clip.end_ c;
       Clip.status := Some Status.error; Clip.url := Clip.url c;
       Clip.error := Some message |}
  else c.

(** [a / b] on numbers. *)
Definition JS_div (a b : JS.number) : JS.number := SFdiv JS.prec JS.emax a b.

(** [n % d] on numbers: NaN when an operand is NaN, the dividend is infinite
    or the divisor is zero; the dividend when the divisor is infinite or the
    dividend is zero; otherwise the exact remainder of truncating division,
    with the sign of the dividend. *)
Definition JS_rem (n d : JS.number) : JS.number :=
  match n, d with
  | S754_nan, _ | _, S754_nan => S754_nan
  | S754_infinity _, _ => S754_nan
  | _, S754_zero _ => S754_nan
  | _, S754_infinity _ => n
  | S754_zero _, _ => n
  | S754_finite sn mn en, S754_finite _ md ed =>
      let ez := Z.min en ed in
      let a := Zpos (fst (shl_align mn en ez)) in
      let b := Zpos (fst (shl_align md ed ez)) in
      binary_normalize JS.prec JS.emax (cond_Zopp sn (a mod b)) ez sn
  end.

(** [s.padStart(target, fill)] for a filler of one code unit. *)
Definition padStart (target : nat) (fill : ascii) (s : string) : string :=
  string_of_list_ascii (repeat fill (target - String.length s)) +:+ s.

(** The decimal digits of an integer. *)
Definition decimal (z : Z) : string := NilZero.string_of_int (Z.to_int z).

(** Structural equality of numbers, as a test. *)
Definition same_number (a b : JS.number) : bool :=
  match a, b with
  | S754_zero s, S754_zero s' => Bool.eqb s s'
  | S754_infinity s, S754_infinity s' => Bool.eqb s s'
  | S754_nan, S754_nan => true
  | S754_finite s m e, S754_finite s' m' e' =>
      Bool.eqb s s' && Pos.eqb m m' && Z.eqb e e'
  | _, _ => false
  end.

(** On the whole second [n], [Math.floor(s / 60)] and [s % 60] are the
    quotient and the remainder of [n] by 60. *)
Definition minutes_and_seconds_agree (n : nat) : bool :=
  let z := Z.of_nat n in
  same_number (JS.Math_floor (JS_div (JS.of_Z z) (JS.of_Z 60))) (JS.of_Z (z / 60))
  && same_number (JS_rem (JS.of_Z z) (JS.of_Z 60)) (JS.of_Z (z mod 60)).

(** The conversion to a string writes the whole numbers below one hundred
    in decimal digits. *)
Definition renders_small_integers (toString : JS.number -> string) : Prop :=
  forall z, 0 <= z < 100 -> toString (JS.of_Z z) = decimal z.

Section Page.

(** [new URL(input)], with [None] when it throws. *)
Variable parseURL : string -> option URL.

(** [s.trim()]. *)
Variable String_trim : string -> string.

Variable Number_toString : JS.number -> string.

Definition extractYouTubeId (input : string) : option string :=
  match parseURL input with
  | Some url =>
      if String.eqb (hostname url) "youtu.be" then Some (Str.slice1 (pathname url))
      else if Str.includes (hostname url) "youtube.com" then
        if Str.startsWith (pathname url) "/shorts/" then
          or_null (nth_error (Str.split slash (pathname url)) 2)
        else if String.eqb (pathname url) "/watch" then
          searchParams_get "v" (searchParams url)
        else
          let parts := List.filter Str.truthy (Str.split slash (pathname url)) in
          match Str.indexOf "embed" parts with
          | Some idx =>
              match nth_error parts (S idx) with
              | Some next => if Str.truthy next then Some next else None
              | None => None
              end
          | None => None
          end
      else None
  | None => if Str.is_raw_id input then Some input else None
  end.

Definition loadVideo (st : PageState) : PageState * list Effect :=
  match or_null (extractYouTubeId (String_trim (inputUrl st))) with
  | None => (st, [Alert "Enter a valid YouTube URL or video ID"])
  | Some id =>
      ({| inputUrl := inputUrl st; videoId := Some id; clips := clips st;
          draftStart := draftStart st; draftEnd := draftEnd st |}, [])
  end.

(** [Math.max(0, Number(playerRef.current.getCurrentTime()) || 0)], and [0]
    when there is nothing to call or the call throws. *)
Definition getCurrentTime (r : TimeRead) : JS.number :=
  match r with
  | ReadGives x =>
      JS.Math_max (JS.of_Z 0) (if JS.truthy (JS.Number x) then x else JS.of_Z 0)
  | NoPlayer | ReadThrows => JS.of_Z 0
  end.

(** [fmt] of the [formatted] memo: the label of a mark. *)
Definition fmt (t : option JS.number) : string :=
  match t with
  | None => "--:--"
  | Some t =>
      if JS.is_nan t then "--:--"
      else
        let s := JS.Math_floor t in
        let m := JS.Math_floor (JS_div s (JS.of_Z 60)) in
        let sec := JS_rem s (JS.of_Z 60) in
        padStart 2 "0" (Number_toString m) +:+ ":" +:+ padStart 2 "0" (Number_toString sec)
  end.

Definition markStart (r : TimeRead) (st : PageState) : PageState :=
  {| inputUrl := inputUrl st; videoId := videoId st; clips := clips st;
     draftStart := Some (getCurrentTime r); draftEnd := draftEnd st |}.

Definition markEnd (r : TimeRead) (st : PageState) : PageState :=
  {| inputUrl := inputUrl st; videoId := videoId st; clips := clips st;
     draftStart := draftStart st; draftEnd := Some (getCurrentTime r) |}.

(** [addClip], with [id] standing for
    [Math.random().toString(36).slice(2, 9)]. *)
Definition addClip (id : string) (st : PageState) : PageState * list Effect :=
  match draftStart st, draftEnd st with
  | Some s, Some e =>
      if JS.leb e s then (st, [Alert "End must be after start"])
      else
        (with_clips
           (clips st ++
            [{| Clip.id := id; Clip.start := s; Clip.end_ := e;
                Clip.status := Some Status.idle; Clip.url := None;
                Clip.error := None |}])%list
           st, [])
  | _, _ => (st, [Alert "Set both start and end"])
  end.

Definition removeClip (id : string) (st : PageState) : PageState :=
  with_clips (List.filter (fun c => negb (String.eqb (Clip.id c) id)) (clips st)) st.

(** The object [downloadClip] posts for a clip. *)
Definition posted (st : PageState) (clip : Clip.t) : Posted :=
  {| posted_url := String_trim (inputUrl st);
     posted_start := Clip.start clip;
     posted_end := Clip.end_ clip;
     posted_format := "mp4" |}.

(** The name [downloadClip] gives to the downloaded file. *)
Definition download_name (clip : Clip.t) : string :=
  "clip_" +:+ Number_toString (JS.Math_floor (Clip.start clip)) +:+ "-"
    +:+ Number_toString (JS.Math_floor (Clip.end_ clip)) +:+ ".mp4".

(** [downloadClip], run to its end with no other handler in between.
    [fetch] is the network, [createObjectURL] is [URL.createObjectURL]. *)
Definition downloadClip
    (fetch : Posted -> JS.result Answer) (createObjectURL : list byte -> string)
    (clip : Clip.t) (st : PageState) : PageState * list Effect :=
  if String.eqb (inputUrl st) "" then
    (st, [Alert "Provide the original YouTube URL (not just ID)"])
  else
    let id := Clip.id clip in
    let working := List.map (mark_downloading id) (clips st) in
    let failed (err : JS.thrown) :=
      (with_clips (List.map (mark_error id (error_text err)) working) st,
       [Fetch (posted st clip)]) in
    match fetch (posted st clip) with
    | JS.Rejected err => failed err
    | JS.Fulfilled res =>
        if negb (ok res) then
          match answer_text res with
          | JS.Rejected err => failed err
          | JS.Fulfilled text =>
              failed (JS.Error
                        (if Str.truthy text then text
                         else "Request failed with "
                              +:+ NilZero.string_of_int (Z.to_int (answer_status res))))
          end
        else
          match answer_blob res with
          | JS.Rejected err => failed err
          | JS.Fulfilled blob =>
              let blobUrl := createObjectURL blob in
              (with_clips (List.map (mark_done id blobUrl) working) st,
               [Fetch (posted st clip); Download blobUrl (download_name clip)])
          end
    end.

(** *** The handlers as steps of the page

    A step is one handler run to its end, or one of the three updates of
    [downloadClip] applied on its own to the list as it is at that moment,
    which is how they run when other handlers come in between the fetch and
    its answer. *)

Inductive Action :=
  | SetInputUrl (value : string)
  | LoadVideo
  | MarkStart (r : TimeRead)
  | MarkEnd (r : TimeRead)
  | AddClip (id : string)
  | RemoveClip (id : string)
  | DownloadClip (fetch : Posted -> JS.result Answer)
      (createObjectURL : list byte -> string) (clip : Clip.t)
  | UpdateDownloading (id : string)
  | UpdateDone (id blobUrl : string)
  | UpdateError (id message : string).

Definition act (st : PageState) (a : Action) : PageState :=
  match a with
  | SetInputUrl value =>
      {| inputUrl := value; videoId := videoId st; clips := clips st;
         draftStart := draftStart st; draftEnd := draftEnd st |}
  | LoadVideo => fst (loadVideo st)
  | MarkStart r => markStart r st
  | MarkEnd r => markEnd r st
  | AddClip id => fst (addClip id st)
  | RemoveClip id => removeClip id st
  | DownloadClip fetch createObjectURL clip =>
      fst (downloadClip fetch createObjectURL clip st)
  | UpdateDownloading id => with_clips (List.map (mark_downloading id) (clips st)) st
  | UpdateDone id blobUrl => with_clips (List.map (mark_done id blobUrl) (clips st)) st
  | UpdateError id message => with_clips (List.map (mark_error id message) (clips st)) st
  end.

(** The page as first rendered. *)
Definition first_page : PageState :=
  {| inputUrl := ""; videoId := None; clips := [];
     draftStart := None; draftEnd := None |}.

Definition page_after (actions : list Action) : PageState :=
  fold_left act actions first_page.

End Page.

(** A time a mark can hold: a number, not below zero, and not minus zero. *)
Definition mark_time (x : JS.number) : Prop :=
  JS.is_nan x = false /\ JS.leb (JS.of_Z 0) x = true /\ x <> S754_zero true.

(** A clip whose bounds are mark times with the start strictly before the
    end. *)
Definition sound_clip (c : Clip.t) : Prop :=
  mark_time (Clip.start c) /\ mark_time (Clip.end_ c) /\
  JS.ltb (Clip.start c) (Clip.end_ c) = true.

(** The drafts hold mark times and the clips are sound. *)
Definition page_invariant (st : PageState) : Prop :=
  (forall s, draftStart st = Some s -> mark_time s) /\
  (forall e, draftEnd st = Some e -> mark_time e) /\
  Forall sound_clip (clips st).

(** What [downloadClip] may do to one clip: nothing if the clip has another
    id; otherwise the bounds and the id stay and the status becomes done or
    error. *)
Definition download_touch (id : string) (c c' : Clip.t) : Prop :=
  Clip.id c' = Clip.id c /\
  Clip.start c' = Clip.start c /\
  Clip.end_ c' = Clip.end_ c /\
  (Clip.id c <> id -> c' = c) /\
  (Clip.id c = id ->
     Clip.status c' = Some Status.done \/ Clip.status c' = Some Status.error).

(** [fetch] counted among the effects. *)
Definition is_fetch (e : Effect) : bool :=
  match e with Fetch _ => true | _ => false end.

(** The message shown for a refused request: the text of the response, or
    the status when the text is empty. *)
Definition refusal_message (res_status : Z) (text : string) : string :=
  if Str.truthy text then text
  else "Request failed with " +:+ NilZero.string_of_int (Z.to_int res_status).

(** The answer of [fetch] carries the response of the handler. *)
Definition delivers (r : Response) (res : Answer) : Prop :=
  answer_status res = status r /\
  (forall message, payload r = Text message -> answer_text res = JS.Fulfilled message) /\
  (forall data, payload r = Bytes data -> answer_blob res = JS.Fulfilled data).

(** No code unit of the string is a slash. *)
Definition no_slash (s : string) : Prop :=
  ~ In slash (list_ascii_of_string s).



(** ** Samples for the page *)

Definition sample_video_id : string := "aqz-KE-bpKQ".

(** The parsed forms of four URLs of the sample video; other inputs are not
    URLs. *)
Definition sample_parseURL (input : string) : option URL :=
  if String.eqb input watch_url then
    Some {| hostname := "www.youtube.com"; pathname := "/watch";
            searchParams := [("v", sample_video_id)] |}
  else if String.eqb input "https://youtu.be/aqz-KE-bpKQ" then
    Some {| hostname := "youtu.be"; pathname := "/aqz-KE-bpKQ"; searchParams := [] |}
  else if String.eqb input "https://www.youtube.com/shorts/aqz-KE-bpKQ" then
    Some {| hostname := "www.youtube.com"; pathname := "/shorts/aqz-KE-bpKQ";
            searchParams := [] |}
  else if String.eqb input "https://www.youtube.com/embed/aqz-KE-bpKQ" then
    Some {| hostname := "www.youtube.com"; pathname := "/embed/aqz-KE-bpKQ";
            searchParams := [] |}
  else if String.eqb input "https://youtube.com.example.org/watch?v=aqz-KE-bpKQ" then
    Some {| hostname := "youtube.com.example.org"; pathname := "/watch";
            searchParams := [("v", sample_video_id)] |}
  else None.

(** Trimming, on the sample inputs, which have no white space at their
    ends. *)
Definition sample_trim (s : string) : string := s.

Definition sample_clip : Clip.t :=
  {| Clip.id := "k3x9q1z";
     Clip.start := JS.of_Z 10;
     Clip.end_ := JS.of_Z 15;
     Clip.status := Some Status.idle;
     Clip.url := None;
     Clip.error := None |}.

Definition sample_page : PageState :=
  {| inputUrl := watch_url;
     videoId := Some sample_video_id;
     clips := [sample_clip];
     draftStart := Some (JS.of_Z 10);
     draftEnd := Some (JS.of_Z 15) |}.

(** A network that hands the posted body to the handler under [env] and
    brings its response back. *)
Definition answer_of (r : Response) : Answer :=
  {| answer_status := status r;
     answer_text :=
       JS.Fulfilled match payload r with Text message => message | Bytes _ => "" end;
     answer_blob :=
       JS.Fulfilled match payload r with Bytes data => data | Text _ => [] end |}.

Definition fetch_from (env : Env) (p : Posted) : JS.result Answer :=
  JS.Fulfilled
    (answer_of (response (POST integral_toString env
                            {| json := JS.Fulfilled (received p) |} fresh_world))).

Definition sample_object_url (blob : list byte) : string :=
  "blob:https://clips.example/0d4c3b7e".

(** A world in which another request's artifact is on disk. *)
Definition busy_world : World :=
  {| files := {[ "/tmp/clip_other.mp4" := clip_bytes ]}; ffmpegPath := None |}.

(** 75.5, a mark a minute and a quarter into the video. *)
Definition sample_mark : JS.number := S754_finite false 5312840185413632 (-46).

(** * Properties *)

(** ** Numbers *)

Lemma SFcompare_antisym (a b : JS.number) :
  SFcompare b a = option_map CompOpp (SFcompare a b).
Proof.
  destruct a as [sa|sa| |sa ma ea], b as [sb|sb| |sb mb eb]; simpl;
    try reflexivity; try (destruct sa; reflexivity); try (destruct sb; reflexivity);
    try (destruct sa, sb; reflexivity).
  rewrite (Z.compare_antisym ea eb), !Pos.compare_cont_spec.
  rewrite (Pos.compare_antisym ma mb).
  destruct sa, sb; simpl; try reflexivity;
    destruct (ea ?= eb); simpl; try reflexivity;
    destruct (ma ?= mb)%positive; reflexivity.
Qed.

(** [start < end] excludes [end <= start]. *)
Lemma ltb_excludes_leb (a b : JS.number) :
  JS.ltb a b = true -> JS.leb b a = false.
Proof.
  unfold JS.ltb, JS.leb, SFltb, SFleb.
  rewrite (SFcompare_antisym a b).
  destruct (SFcompare a b) as [[ | | ]|]; simpl; congruence.
Qed.

(** A comparison with NaN is false. *)
Lemma leb_nan (a b : JS.number) :
  JS.is_nan a = true \/ JS.is_nan b = true -> JS.leb a b = false.
Proof.
  intros [H|H]; destruct a, b; simpl in H; try discriminate; reflexivity.
Qed.

(** [Math.max(0.01, d)] is the larger of the two when [d] is a number, and
    NaN when [d] is NaN. *)
Lemma Math_max_floor_0_01 (d : JS.number) :
  JS.Math_max JS.lit_0_01 d =
    if JS.is_nan d then JS.NaN
    else if JS.ltb JS.lit_0_01 d then d else JS.lit_0_01.
Proof.
  unfold JS.Math_max, JS.ltb, SFltb.
  destruct d as [s|s| |s m e]; try reflexivity.
  - destruct s; reflexivity.
  - destruct (SFcompare JS.lit_0_01 (S754_finite s m e)) as [[ | | ]|] eqn:E;
      try reflexivity.
    destruct s; discriminate.
Qed.

(** *** [Math.floor] and integers *)

Lemma digits2_pos_size (p : positive) : digits2_pos p = Pos.size p.
Proof. induction p; simpl; congruence. Qed.

Lemma digits2_pos_bound (p : positive) (n : Z) :
  0 <= n -> Zpos p < 2 ^ n -> Zpos (digits2_pos p) <= n.
Proof.
  intros Hn Hp. rewrite digits2_pos_size.
  destruct (Z_le_gt_dec (Zpos (Pos.size p)) n) as [H|H]; [exact H|exfalso].
  assert (Hle := Pos.size_le p).
  assert (2 ^ (n + 1) <= 2 ^ Zpos (Pos.size p)) by (apply Z.pow_le_mono_r; lia).
  rewrite Z.pow_add_r in H0 by lia.
  assert (Zpos (2 ^ Pos.size p) <= Zpos p~0) by exact Hle.
  rewrite Pos2Z.inj_pow in H1. change (Zpos p~0) with (2 * Zpos p) in H1. lia.
Qed.

Lemma iter_xO_shiftl (p d : positive) :
  Zpos (Pos.iter xO p d) = Zpos p * 2 ^ Zpos d.
Proof.
  induction d using Pos.peano_ind.
  - simpl. lia.
  - rewrite Pos.iter_succ, Pos2Z.inj_succ, Z.pow_succ_r by lia.
    change (Zpos (Pos.iter xO p d)~0) with (2 * Zpos (Pos.iter xO p d)). lia.
Qed.

Lemma iter_xO_digits (p d : positive) :
  Zpos (digits2_pos (Pos.iter xO p d)) = Zpos (digits2_pos p) + Zpos d.
Proof.
  induction d using Pos.peano_ind.
  - simpl. lia.
  - rewrite Pos.iter_succ. simpl digits2_pos. lia.
Qed.

Lemma binary_round_integer (s : bool) (p : positive) :
  Zpos p < 2 ^ 53 ->
  JS.to_integer (binary_round JS.prec JS.emax s p 0) = Some (cond_Zopp s (Zpos p)).
Proof.
  intros Hp.
  assert (Hd := digits2_pos_bound p 53 ltac:(lia) Hp).
  assert (Hd1 : 1 <= Zpos (digits2_pos p)) by lia.
  unfold binary_round.
  assert (Hf : fexp JS.prec JS.emax (Zpos (digits2_pos p) + 0) = Zpos (digits2_pos p) - 53).
  { unfold fexp, emin, JS.prec, JS.emax. lia. }
  rewrite Hf. unfold shl_align.
  replace (Zpos (digits2_pos p) - 53 - 0) with (Zpos (digits2_pos p) - 53) by lia.
  destruct (Zpos (digits2_pos p) - 53) as [|d|d] eqn:Ed; [|lia|].
  - unfold binary_round_aux, shr_fexp, Zdigits2.
    assert (Hf0 : fexp JS.prec JS.emax (Zpos (digits2_pos p) + 0) - 0 = 0).
    { rewrite Hf. lia. }
    rewrite Hf0. cbn [shr shr_record_of_loc loc_of_shr_record shr_m round_nearest_even].
    unfold Zdigits2. rewrite Hf0.
    cbn [shr shr_record_of_loc loc_of_shr_record shr_m round_nearest_even].
    change (0 <=? JS.emax - JS.prec) with true. cbv iota.
    unfold JS.to_integer. change (0 <=? 0) with true. cbv iota.
    rewrite Z.shiftl_0_r. reflexivity.
  - unfold binary_round_aux, shr_fexp, Zdigits2.
    assert (Hf1 : fexp JS.prec JS.emax (Zpos (digits2_pos (Pos.iter xO p d)) + Zneg d) - Zneg d = 0).
    { rewrite iter_xO_digits. unfold fexp, emin, JS.prec, JS.emax. lia. }
    rewrite Hf1. cbn [shr shr_record_of_loc loc_of_shr_record shr_m round_nearest_even].
    unfold Zdigits2. rewrite Hf1.
    cbn [shr shr_record_of_loc loc_of_shr_record shr_m round_nearest_even].
    assert (Hle : (Zneg d <=? JS.emax - JS.prec) = true) by (apply Z.leb_le; unfold JS.emax, JS.prec; lia).
    rewrite Hle. unfold JS.to_integer.
    change (0 <=? Zneg d) with false. cbv iota.
    change (- Zneg d) with (Zpos d).
    rewrite iter_xO_shiftl.
    rewrite Z.shiftr_div_pow2, Z.div_mul by lia.
    rewrite Z.shiftl_mul_pow2, Z.eqb_refl by lia. reflexivity.
Qed.

Lemma binary_normalize_integer (z : Z) (sz : bool) :
  Z.abs z < 2 ^ 53 ->
  JS.to_integer (binary_normalize JS.prec JS.emax z 0 sz) = Some z.
Proof.
  destruct z as [|p|p]; intros Hz; simpl binary_normalize.
  - reflexivity.
  - apply (binary_round_integer false p). exact Hz.
  - apply (binary_round_integer true p). exact Hz.
Qed.

(** [Math.floor] is the floor: the number [(-1)^s * m * 2^e] with a negative
    exponent and a significand of at most 53 bits is taken to the integer
    quotient of its signed significand by [2^(-e)], rounded down. *)
Lemma Math_floor_is_floor (s : bool) (m : positive) (e : Z) :
  e < 0 -> Zpos m < 2 ^ 53 ->
  JS.to_integer (JS.Math_floor (S754_finite s m e))
    = Some (cond_Zopp s (Zpos m) / 2 ^ (- e)).
Proof.
  intros He Hm. unfold JS.Math_floor.
  destruct (Z.leb_spec 0 e) as [H|_]; [lia|].
  rewrite Z.shiftr_div_pow2, Z.shiftl_mul_pow2 by lia.
  set (k := 2 ^ (- e)).
  assert (Hk : 2 <= k).
  { unfold k. replace (- e) with (Z.succ (- e - 1)) by lia.
    rewrite Z.pow_succ_r by lia. assert (0 < 2 ^ (- e - 1)) by (apply Z.pow_pos_nonneg; lia). lia. }
  assert (Hq := Z.div_mod (Zpos m) k ltac:(lia)).
  assert (Hr := Z.mod_pos_bound (Zpos m) k ltac:(lia)).
  set (q := Zpos m / k) in *. set (r := Zpos m mod k) in *.
  assert (Hq0 : 0 <= q) by (apply Z.div_pos; lia).
  destruct s; simpl cond_Zopp.
  - destruct (Z.eqb_spec (q * k) (Zpos m)) as [Hex|Hex].
    + rewrite binary_normalize_integer by nia. f_equal.
      apply Z.div_unique with (r := 0); nia.
    + rewrite binary_normalize_integer by nia. f_equal.
      apply Z.div_unique with (r := k - r); nia.
  - rewrite binary_normalize_integer by nia. reflexivity.
Qed.

(** ** Validation *)

Lemma typeof_string (v : JS.value) :
  String.eqb (JS.typeof v) "string" = true -> exists s, v = JS.Str s.
Proof. destruct v; simpl; try discriminate. eauto. Qed.

Lemma typeof_number (v : JS.value) :
  String.eqb (JS.typeof v) "number" = true -> exists x, v = JS.Number x.
Proof. destruct v; simpl; try discriminate. eauto. Qed.

(** What [validateBody] lets through. *)
Lemma validateBody_fulfilled (body : Json) :
  validateBody body = JS.Fulfilled tt ->
  exists b u s e,
    body = JsonProps b /\ url b = JS.Str u /\ u <> "" /\
    start b = JS.Number s /\ end_ b = JS.Number e /\ JS.leb e s = false.
Proof.
  destruct body as [|b]; simpl; [discriminate|].
  destruct (JS.truthy (url b)) eqn:Ht; simpl; [|discriminate].
  destruct (String.eqb (JS.typeof (url b)) "string") eqn:Hu; simpl; [|discriminate].
  destruct (String.eqb (JS.typeof (start b)) "number") eqn:Hs; simpl; [|discriminate].
  destruct (String.eqb (JS.typeof (end_ b)) "number") eqn:He; simpl; [|discriminate].
  destruct (typeof_string _ Hu) as [u Eu].
  destruct (typeof_number _ Hs) as [s Es].
  destruct (typeof_number _ He) as [e Ee].
  rewrite Es, Ee. simpl.
  destruct (JS.leb e s) eqn:Hle; [discriminate|]. intros _.
  exists b, u, s, e. repeat split; auto.
  intros ->. rewrite Eu in Ht. discriminate.
Qed.

Lemma validateBody_accepts (b : Body) (u : string) (s e : JS.number) :
  url b = JS.Str u -> u <> "" ->
  start b = JS.Number s -> end_ b = JS.Number e -> JS.leb e s = false ->
  validateBody (JsonProps b) = JS.Fulfilled tt.
Proof.
  intros Eu Hu Es Ee Hle. unfold validateBody.
  rewrite Eu, Es, Ee. simpl.
  destruct (String.eqb_spec u ""); [contradiction|]. simpl.
  rewrite Hle. reflexivity.
Qed.

(** A NaN bound passes validation: every comparison with NaN is false. *)
Lemma nan_bound_passes_validation (b : Body) (u : string) (s e : JS.number) :
  url b = JS.Str u -> u <> "" ->
  start b = JS.Number s -> end_ b = JS.Number e ->
  JS.is_nan s = true \/ JS.is_nan e = true ->
  validateBody (JsonProps b) = JS.Fulfilled tt.
Proof.
  intros Eu Hu Es Ee Hnan.
  apply validateBody_accepts with (u := u) (s := s) (e := e); auto.
  apply leb_nan. tauto.
Qed.

(** What [validateBody] throws is one of its three errors. *)
Lemma validateBody_rejected (b : Body) (err : JS.thrown) :
  validateBody (JsonProps b) = JS.Rejected err ->
  exists msg, err = JS.Error msg /\ In msg validation_messages.
Proof.
  unfold validateBody, validation_messages.
  repeat match goal with
         | |- context [if ?c then _ else _] => destruct c
         end; intros [= <-]; eexists; split; try reflexivity; simpl; auto.
Qed.

(** An invalid body is rejected. *)
Lemma validateBody_rejects (b : Body) :
  lacks_url b \/ lacks_bounds b \/ empty_window b ->
  exists msg,
    validateBody (JsonProps b) = JS.Rejected (JS.Error msg) /\
    In msg validation_messages.
Proof.
  intros Hbad.
  destruct (validateBody (JsonProps b)) as [[]|err] eqn:Hv.
  - exfalso.
    destruct (validateBody_fulfilled _ Hv) as (b' & u & s & e & [= <-] & Eu & Hu & Es & Ee & Hle).
    destruct Hbad as [H | [[H | H] | (s' & e' & Es' & Ee' & Hle')]].
    + apply Hu, H, Eu.
    + apply (H s), Es.
    + apply (H e), Ee.
    + rewrite Es in Es'. rewrite Ee in Ee'.
      injection Es' as <-. injection Ee' as <-. congruence.
  - destruct (validateBody_rejected _ _ Hv) as (msg & -> & Hin). eauto.
Qed.

Section HandlerFacts.

Variable Number_toString : JS.number -> string.

Local Abbreviation handler := (POST Number_toString).

(** A request that fails validation is answered from the catch clause; the
    only call made is the body read. *)
Lemma POST_rejected_by_validation (env : Env) (req : NextRequest) (w : World)
    (body : Json) (err : JS.thrown) :
  json req = JS.Fulfilled body ->
  validateBody body = JS.Rejected err ->
  handler env req w =
    {| response := error_response err; world := w; calls := [CallJson] |}.
Proof.
  intros Hj Hv. unfold POST, POST_try, bind, call, lift.
  rewrite Hj. simpl. rewrite Hv. reflexivity.
Qed.

(** Unfolding the handler and splitting on every outcome of a collaborator. *)
Ltac enter_handler :=
  unfold POST, POST_try, select_format, run_ffmpeg, readFile, unlink,
    setFfmpegPath, bind, call, lift, ret, return_.

Ltac split_outcomes :=
  repeat (cbn [settle fst snd app];
          match goal with
          | |- context [settle ?r] => destruct r eqn:?
          | |- context [match ?o with Some _ => _ | None => _ end] => destruct o eqn:?
          | |- context [match ?j with JsonNull => _ | JsonProps _ => _ end] => destruct j eqn:?
          | |- context [if ?c then _ else _] => destruct c eqn:?
          end);
  cbn [settle fst snd app response world calls status payload headers
       error_response no_format_response clip_response].

(** ** Validation comes first *)

(** C2.  A request whose body lacks a usable url, lacks a numeric start or
    end, or has [end <= start] is answered with the validation error, and
    the handler has then made no call but the read of the body: no identifier
    drawn, no manifest fetched, no stream opened, no transcoder run, and the
    world is as it was. *)
Theorem invalid_request_stops_at_validation
    (env : Env) (req : NextRequest) (w : World) (b : Body) :
  json req = JS.Fulfilled (JsonProps b) ->
  lacks_url b \/ lacks_bounds b \/ empty_window b ->
  exists msg,
    In msg validation_messages /\
    handler env req w =
      {| response := {| payload := Text msg; status := 500; headers := [] |};
         world := w;
         calls := [CallJson] |}.
Proof.
  intros Hj Hbad.
  destruct (validateBody_rejects b Hbad) as (msg & Hv & Hin).
  exists msg. split; [exact Hin|].
  rewrite (POST_rejected_by_validation env req w _ _ Hj Hv).
  unfold error_response, error_text, JS.Error.
  destruct (String.eqb_spec msg ""); [|reflexivity].
  subst msg. simpl in Hin. intuition discriminate.
Qed.

(** ** The transcoder's arguments *)

(** C5.  Whenever a validated request gets as far as the transcoder, the
    value following [-t] in the output options is the rendering of
    [Math.max(0.01, end - start)]. *)
Theorem transcoder_duration
    (env : Env) (req : NextRequest) (w : World) (b : Body)
    (s e : JS.number) (cmd : Ffmpeg.command) :
  json req = JS.Fulfilled (JsonProps b) ->
  validateBody (JsonProps b) = JS.Fulfilled tt ->
  start b = JS.Number s -> end_ b = JS.Number e ->
  In (CallFfmpeg cmd) (calls (handler env req w)) ->
  Ffmpeg.arg_after "-t" (Ffmpeg.outputOptions cmd)
    = Some (Number_toString (JS.Math_max JS.lit_0_01 (JS.sub e s))).
Proof.
  intros Hj Hv Hs He.
  enter_handler. rewrite Hj. cbn [settle]. rewrite Hv. cbn [settle].
  rewrite Hs, He. cbn [JS.the_number].
  split_outcomes; simpl; intros Hin;
    repeat match goal with
           | H : _ \/ _ |- _ => destruct H
           | H : False |- _ => contradiction
           | H : _ = CallFfmpeg _ |- _ => first [discriminate H | injection H as <-]
           end;
    reflexivity.
Qed.

(** A validated request that finds a usable format and an open stream
    reaches the transcoder, with the artifact path as output. *)
Lemma transcoder_invoked
    (env : Env) (req : NextRequest) (w : World) (b : Body)
    (s e : JS.number) (info : Ytdl.videoInfo) (f : Ytdl.videoFormat)
    (readStream : Ytdl.Readable) :
  json req = JS.Fulfilled (JsonProps b) ->
  validateBody (JsonProps b) = JS.Fulfilled tt ->
  start b = JS.Number s -> end_ b = JS.Number e ->
  getInfo env (JS.the_string (url b)) = JS.Fulfilled info ->
  chooseFormat env (Ytdl.formats info) preferred_options = JS.Fulfilled (Some f) ->
  Ytdl.url_falsy f = false ->
  downloadFromInfo env info (download_options f) = JS.Fulfilled readStream ->
  In (CallFfmpeg (clip_command Number_toString readStream s
                    (JS.Math_max JS.lit_0_01 (JS.sub e s)) (artifact_path env)))
     (calls (handler env req w)).
Proof.
  intros Hj Hv Hs He Hg Hc Hu Hd.
  enter_handler. rewrite Hj. cbn [settle]. rewrite Hv. cbn [settle].
  rewrite Hs, He, Hg. cbn [JS.the_number settle]. rewrite Hc. cbn [settle].
  rewrite Hu, Hd. unfold artifact_path.
  split_outcomes; simpl; auto 10.
Qed.

(** ** What validation checks of the bounds *)

(** C6, as the code has it.  Validation asks that start and end be numbers
    and that [end <= start] be false, and nothing more of them: a body with a
    bound that is not a number is rejected, and a body with a non-empty
    string url and numeric bounds passes exactly when [end <= start] is
    false, be the bounds finite or not. *)
Theorem validation_checks_type_and_order (b : Body) :
  (lacks_bounds b ->
     validateBody (JsonProps b) = JS.Rejected (JS.Error "Missing url") \/
     validateBody (JsonProps b) = JS.Rejected (JS.Error "Missing start/end")) /\
  (forall u s e,
     url b = JS.Str u -> u <> "" ->
     start b = JS.Number s -> end_ b = JS.Number e ->
     (validateBody (JsonProps b) = JS.Fulfilled tt <-> JS.leb e s = false)).
Proof.
  split.
  - intros Hb. unfold validateBody.
    destruct (negb (JS.truthy (url b)) || negb (String.eqb (JS.typeof (url b)) "string"));
      [left; reflexivity|right].
    destruct (String.eqb (JS.typeof (start b)) "number") eqn:Hs;
      [|reflexivity].
    destruct (String.eqb (JS.typeof (end_ b)) "number") eqn:He;
      [|reflexivity].
    exfalso.
    destruct (typeof_number _ Hs) as [s Es], (typeof_number _ He) as [e Ee].
    destruct Hb as [H|H]; [apply (H s Es)|apply (H e Ee)].
  - intros u s e Eu Hu Es Ee. split.
    + intros Hv.
      destruct (validateBody_fulfilled _ Hv)
        as (b' & u' & s' & e' & [= <-] & _ & _ & Es' & Ee' & Hle).
      congruence.
    + apply validateBody_accepts with (u := u); assumption.
Qed.

(** C7, as the code has it.  Validation does not look at the sign of start:
    a body with a non-empty string url, a start below zero and an end above
    the start passes validation, its url goes to the manifest fetch, and if
    the transcoder is reached the negative start is its [-ss] offset. *)
Theorem negative_start_is_served
    (env : Env) (req : NextRequest) (w : World) (b : Body)
    (u : string) (s e : JS.number) :
  json req = JS.Fulfilled (JsonProps b) ->
  url b = JS.Str u -> u <> "" ->
  start b = JS.Number s -> end_ b = JS.Number e ->
  JS.ltb s (JS.of_Z 0) = true -> JS.ltb s e = true ->
  validateBody (JsonProps b) = JS.Fulfilled tt /\
  In (CallGetInfo u) (calls (handler env req w)) /\
  (forall cmd, In (CallFfmpeg cmd) (calls (handler env req w)) ->
     Ffmpeg.arg_after "-ss" (Ffmpeg.outputOptions cmd) = Some (Number_toString s)).
Proof.
  intros Hj Eu Hu Es Ee _ Hlt.
  assert (Hv : validateBody (JsonProps b) = JS.Fulfilled tt).
  { apply validateBody_accepts with (u := u) (s := s) (e := e); auto.
    apply ltb_excludes_leb, Hlt. }
  split; [exact Hv|].
  enter_handler. rewrite Hj. cbn [settle]. rewrite Hv. cbn [settle].
  rewrite Eu, Es, Ee. cbn [JS.the_number JS.the_string].
  split.
  - split_outcomes; simpl; auto 10.
  - intros cmd.
    split_outcomes; simpl; intros Hin;
      repeat match goal with
             | H : _ \/ _ |- _ => destruct H
             | H : False |- _ => contradiction
             | H : _ = CallFfmpeg _ |- _ => first [discriminate H | injection H as <-]
             end;
      reflexivity.
Qed.

(** ** Responses *)

(** C8.  A response that carries the clip has status 200 and exactly the
    three headers: the mp4 content type, the attachment disposition whose
    file name is built from [Math.floor] of the request's start and end, and
    the no-store cache control. *)
Theorem clip_response_headers
    (env : Env) (req : NextRequest) (w : World) (data : list byte) :
  payload (response (handler env req w)) = Bytes data ->
  exists b s e,
    json req = JS.Fulfilled (JsonProps b) /\
    start b = JS.Number s /\ end_ b = JS.Number e /\
    status (response (handler env req w)) = 200 /\
    headers (response (handler env req w)) =
      [ ("Content-Type", "video/mp4");
        ("Content-Disposition",
         "attachment; filename=" +:+ dquote +:+ "clip_"
           +:+ Number_toString (JS.Math_floor s) +:+ "-"
           +:+ Number_toString (JS.Math_floor e) +:+ ".mp4" +:+ dquote);
        ("Cache-Control", "no-store") ].
Proof.
  enter_handler. split_outcomes; intros Hp; try discriminate Hp.
  all: lazymatch goal with
       | H : validateBody (JsonProps ?b) = JS.Fulfilled ?t |- _ =>
           destruct t;
           destruct (validateBody_fulfilled _ H)
             as (b' & u' & s' & e' & [= <-] & _ & _ & Es & Ee & _);
           exists b, s', e'; rewrite Es, Ee; auto
       end.
Qed.

(** The format check answers with status 400. *)
Lemma no_usable_format_response (env : Env) (req : NextRequest) (w : World) :
  no_usable_format env req ->
  response (handler env req w) = no_format_response.
Proof.
  intros (b & info & sel & Hj & Hv & Hg & Hsel & Hun).
  assert (Hw := Hsel w).
  assert (Hw' := Hsel (with_ffmpegPath "" w)).
  revert Hw Hw'.
  enter_handler. rewrite Hj. cbn [settle]. rewrite Hv. cbn [settle]. rewrite Hg.
  split_outcomes; cbn [fst snd]; intros Hw Hw';
    try discriminate Hw; try discriminate Hw';
    try (injection Hw as <-); try (injection Hw' as <-);
    simpl in Hun; try congruence; try reflexivity.
Qed.

(** Whatever the collaborators do, a response with a text body comes from
    the catch clause, with status 500, or from the handler's own format
    check. *)
Lemma text_response_origin (env : Env) (req : NextRequest) (w : World) (msg : string) :
  payload (response (handler env req w)) = Text msg ->
  (status (response (handler env req w)) = 500 /\
   headers (response (handler env req w)) = []) \/
  (status (response (handler env req w)) = 400 /\
   msg = "Failed to get a downloadable format" /\
   no_usable_format env req).
Proof.
  unfold no_usable_format.
  enter_handler. split_outcomes; intros Hp; try discriminate Hp;
    try (left; split; reflexivity).
  all: right; injection Hp as <-; split; [reflexivity|split; [reflexivity|]].
  all: lazymatch goal with
       | Hv : validateBody (JsonProps ?b) = JS.Fulfilled ?t,
         Hg : getInfo _ _ = JS.Fulfilled ?info |- _ =>
           destruct t; exists b, info
       end.
  all: lazymatch goal with
       | H : Ytdl.url_falsy ?v = true |- _ => exists (Some v)
       | _ => exists None
       end.
  all: repeat split; try assumption; try reflexivity.
  all: intros w0; unfold select_format, bind, call, ret;
    repeat match goal with
           | H : chooseFormat _ _ _ = _ |- _ => rewrite H; clear H
           end;
    reflexivity.
Qed.

(** ** The format field *)

(** C10.  Two requests whose bodies agree on url, start and end are served
    alike, whatever their format fields hold: same response, same world,
    same calls; and every transcoder command asks for the mp4 container. *)
Theorem format_field_is_ignored
    (env : Env) (req1 req2 : NextRequest) (w : World) (b1 b2 : Body) :
  json req1 = JS.Fulfilled (JsonProps b1) ->
  json req2 = JS.Fulfilled (JsonProps b2) ->
  url b1 = url b2 -> start b1 = start b2 -> end_ b1 = end_ b2 ->
  handler env req1 w = handler env req2 w /\
  (forall cmd, In (CallFfmpeg cmd) (calls (handler env req1 w)) ->
     Ffmpeg.format cmd = "mp4").
Proof.
  intros Hj1 Hj2 Hu Hs He. split.
  - enter_handler. rewrite Hj1, Hj2. cbn [settle validateBody].
    rewrite Hu, Hs, He. reflexivity.
  - intros cmd. enter_handler.
    split_outcomes; simpl; intros Hin;
      repeat match goal with
             | H : _ \/ _ |- _ => destruct H
             | H : False |- _ => contradiction
             | H : _ = CallFfmpeg _ |- _ => first [discriminate H | injection H as <-]
             end;
      reflexivity.
Qed.

(** ** The artifact *)

(** When the clip is delivered, the artifact has been read and its removal
    asked for; it is gone when the file system carried the removal out. *)
Lemma delivered_clip_leaves_no_artifact
    (env : Env) (req : NextRequest) (w : World) (data : list byte) :
  payload (response (handler env req w)) = Bytes data ->
  In (CallUnlink (artifact_path env)) (calls (handler env req w)) /\
  (unlink_removes env (artifact_path env) = true ->
   files (world (handler env req w)) !! artifact_path env = None).
Proof.
  unfold artifact_path.
  enter_handler. split_outcomes; intros Hp; try discriminate Hp.
  all: split; [simpl; auto 12 | intros Hr; try discriminate Hr; apply lookup_delete_eq].
Qed.

(** When the transcoder fails, nothing is read or removed: what the process
    left at the artifact path stays there. *)
Lemma failed_transcode_keeps_artifact
    (env : Env) (req : NextRequest) (w : World)
    (cmd : Ffmpeg.command) (err : JS.thrown) (partial : list byte) :
  In (CallFfmpeg cmd) (calls (handler env req w)) ->
  Ffmpeg.settles (ffmpeg_run env cmd) = JS.Rejected err ->
  Ffmpeg.leaves (ffmpeg_run env cmd) = Some partial ->
  response (handler env req w) = error_response err /\
  files (world (handler env req w)) !! artifact_path env = Some partial /\
  ~ In (CallUnlink (artifact_path env)) (calls (handler env req w)).
Proof.
  unfold artifact_path.
  enter_handler. split_outcomes; simpl; intros Hin Hs Hl;
    repeat match goal with
           | H : _ \/ _ |- _ => destruct H
           | H : False |- _ => contradiction
           | H : _ = CallFfmpeg _ |- _ => first [discriminate H | injection H as <-]
           end;
    try congruence.
  all: repeat match goal with
              | H1 : ?x = _, H2 : ?x = _ |- _ => rewrite H1 in H2; inversion H2; subst; clear H2
              end.
  all: split; [reflexivity|split; [apply lookup_insert_eq|]].
  all: intros Hin; repeat destruct Hin as [Hin|Hin]; try discriminate Hin; contradiction.
Qed.

(** When format selection throws, the request is answered from the catch
    clause with that error, after the manifest fetch and before any
    transcoder run. *)
Lemma format_selection_error
    (env : Env) (req : NextRequest) (w : World)
    (b : Body) (info : Ytdl.videoInfo) (err : JS.thrown) :
  json req = JS.Fulfilled (JsonProps b) ->
  validateBody (JsonProps b) = JS.Fulfilled tt ->
  getInfo env (JS.the_string (url b)) = JS.Fulfilled info ->
  (forall w', select_format env (Ytdl.formats info) w' =
     (Throw err, w', [CallChooseFormat (Ytdl.formats info) preferred_options])) ->
  response (handler env req w) = error_response err /\
  In (CallGetInfo (JS.the_string (url b))) (calls (handler env req w)) /\
  forall cmd, ~ In (CallFfmpeg cmd) (calls (handler env req w)).
Proof.
  intros Hj Hv Hg Hsel.
  unfold POST, POST_try, setFfmpegPath, bind, call, lift, ret.
  rewrite Hj. cbn [settle]. rewrite Hv. cbn [settle]. rewrite Hg. cbn [settle].
  destruct (ffmpegStatic env) as [p|]; [destruct (String.eqb p "")|];
    rewrite Hsel; cbn [response calls app].
  all: split; [reflexivity|split; [simpl; auto 8|]].
  all: intros cmd Hin; simpl in Hin;
    repeat destruct Hin as [Hin|Hin]; try discriminate Hin; contradiction.
Qed.

End HandlerFacts.

(** ** Format selection with [ytdl-core] *)

(** In a manifest sorted best first, the first entry that passes a test is
    ranked at least as high as every entry that passes it. *)
Lemma head_filter_best_first
    (rank : Ytdl.videoFormat -> nat) (p : Ytdl.videoFormat -> bool)
    (l : list Ytdl.videoFormat) (f : Ytdl.videoFormat) :
  best_first rank l ->
  head (List.filter p l) = Some f ->
  In f l /\ p f = true /\
  forall g, In g l -> p g = true -> (rank g <= rank f)%nat.
Proof.
  intros Hs. induction Hs as [|a l Hs IH Ha]; simpl; [discriminate|].
  destruct (p a) eqn:Hpa; simpl.
  - intros [= <-]. repeat split; auto.
    intros g [<-|Hg] _; [lia|].
    rewrite List.Forall_forall in Ha. apply Ha, Hg.
  - intros Hh. destruct (IH Hh) as (Hin & Hpf & Hbest).
    repeat split; auto.
    intros g [<-|Hg] Hpg; [congruence|auto].
Qed.

Lemma head_filter_exists {A} (p : A -> bool) (l : list A) (c : A) :
  In c l -> p c = true -> exists f, head (List.filter p l) = Some f.
Proof.
  intros Hin Hp.
  destruct (List.filter p l) as [|f l'] eqn:E; [|simpl; eauto].
  exfalso. assert (Hc : In c (List.filter p l)) by (apply filter_In; auto).
  rewrite E in Hc. destruct Hc.
Qed.

Lemma progressive_mp4_fields (f : Ytdl.videoFormat) :
  progressive_mp4 f = true ->
  Ytdl.container f = "mp4" /\ Ytdl.hasVideo f = true /\ Ytdl.hasAudio f = true /\
  Ytdl.isHLS f = false /\ Ytdl.isDashMPD f = false.
Proof.
  unfold progressive_mp4. rewrite !andb_true_iff.
  intros [[[[Hc Hv] Ha] Hh] Hd].
  apply String.eqb_eq in Hc. apply Bool.eqb_prop in Hh, Hd. auto.
Qed.

(** What [chooseFormat] of the package answers to the handler's first call:
    the first located progressive mp4 entry, or the error. *)
Lemma chooseFormat_preferred (formats : list Ytdl.videoFormat) :
  YtdlCore.chooseFormat formats preferred_options =
    match head (List.filter (fun f => negb (Ytdl.url_falsy f) && progressive_mp4 f) formats) with
    | Some f => JS.Fulfilled (Some f)
    | None => JS.Rejected (JS.Error "No such format found: highest")
    end.
Proof.
  unfold YtdlCore.chooseFormat, YtdlCore.filterFormats. cbn [preferred_options Ytdl.filter Ytdl.quality default].
  set (l := List.filter _ formats).
  assert (Hl : existsb Ytdl.isHLS l = false).
  { apply not_true_is_false. intros H. apply existsb_exists in H.
    destruct H as (f & Hin & Hh). apply filter_In in Hin.
    destruct Hin as [_ Hp]. apply andb_true_iff in Hp. destruct Hp as [_ Hp].
    destruct (progressive_mp4_fields f Hp) as (_ & _ & _ & Hn & _). congruence. }
  rewrite Hl. reflexivity.
Qed.

(** The first entry that passes a test splits the list: none before it
    passes. *)
Lemma head_filter_split {A} (p : A -> bool) (l : list A) (f : A) :
  head (List.filter p l) = Some f ->
  exists pre post,
    l = (pre ++ f :: post)%list /\ p f = true /\ Forall (fun g => p g = false) pre.
Proof.
  induction l as [|a l IH]; simpl; [discriminate|].
  destruct (p a) eqn:Hpa; simpl.
  - intros [= <-]. exists [], l. repeat split; auto.
  - intros Hh. destruct (IH Hh) as (pre & post & -> & Hpf & Hpre).
    exists (a :: pre), post. repeat split; auto.
Qed.

(** Format selection with the package: the first located progressive mp4
    entry in one call, or the package's error. *)
Lemma select_format_with_the_package
    (env : Env) (formats : list Ytdl.videoFormat) (w : World) :
  chooseFormat env = YtdlCore.chooseFormat ->
  select_format env formats w =
    match head (List.filter located_progressive_mp4 formats) with
    | Some f => (Normal (Some f), w, [CallChooseFormat formats preferred_options])
    | None =>
        (Throw (JS.Error "No such format found: highest"), w,
         [CallChooseFormat formats preferred_options])
    end.
Proof.
  intros Hlib. unfold select_format, bind, call, ret.
  rewrite Hlib, chooseFormat_preferred.
  change (fun f => negb (Ytdl.url_falsy f) && progressive_mp4 f)
    with located_progressive_mp4.
  destruct (head (List.filter located_progressive_mp4 formats)); reflexivity.
Qed.

(** C3, as the code has it.  With the package's [chooseFormat], on a manifest
    that has a progressive mp4 entry (mp4 container, video and audio, neither
    HLS nor DASH) carrying a stream locator, format selection makes the one
    filtered call and yields the first such entry in the order of the
    manifest: every progressive mp4 entry before it lacks a locator.  On a
    manifest sorted best first by a rank, that entry ranks at least as high
    as every located progressive mp4 entry. *)
Theorem progressive_mp4_is_preferred
    (env : Env) (formats : list Ytdl.videoFormat) (w : World) :
  chooseFormat env = YtdlCore.chooseFormat ->
  (exists c, In c formats /\ progressive_mp4 c = true /\ Ytdl.url_falsy c = false) ->
  exists pre f post,
    formats = (pre ++ f :: post)%list /\
    select_format env formats w =
      (Normal (Some f), w, [CallChooseFormat formats preferred_options]) /\
    (Ytdl.container f = "mp4" /\ Ytdl.hasVideo f = true /\ Ytdl.hasAudio f = true /\
     Ytdl.isHLS f = false /\ Ytdl.isDashMPD f = false) /\
    Ytdl.url_falsy f = false /\
    (forall g, In g pre -> progressive_mp4 g = true -> Ytdl.url_falsy g = true) /\
    (forall rank : Ytdl.videoFormat -> nat,
       best_first rank formats ->
       forall g, In g formats -> progressive_mp4 g = true -> Ytdl.url_falsy g = false ->
         (rank g <= rank f)%nat).
Proof.
  intros Hlib (c & Hc & Hpc & Hlc).
  destruct (head_filter_exists located_progressive_mp4 formats c Hc) as [f Hf].
  { unfold located_progressive_mp4. rewrite Hlc, Hpc. reflexivity. }
  destruct (head_filter_split _ _ _ Hf) as (pre & post & Hsplit & Hpf & Hpre).
  unfold located_progressive_mp4 in Hpf. apply andb_true_iff in Hpf.
  destruct Hpf as [Hloc Hprog]. apply negb_true_iff in Hloc.
  exists pre, f, post.
  split; [exact Hsplit|].
  split; [rewrite (select_format_with_the_package env formats w Hlib), Hf; reflexivity|].
  split; [apply progressive_mp4_fields, Hprog|].
  split; [exact Hloc|].
  split.
  - intros g Hg Hpg. rewrite List.Forall_forall in Hpre.
    specialize (Hpre g Hg). unfold located_progressive_mp4 in Hpre.
    rewrite Hpg, andb_true_r in Hpre. apply negb_false_iff in Hpre. exact Hpre.
  - intros rank Hsorted g Hg Hpg Hlg.
    destruct (head_filter_best_first rank located_progressive_mp4 formats f Hsorted Hf)
      as (_ & _ & Hbest).
    apply Hbest; [exact Hg|]. unfold located_progressive_mp4.
    rewrite Hlg, Hpg. reflexivity.
Qed.

(** With the package's [chooseFormat], the handler's own format check never
    fires: a selected format always carries a locator, and finding none is
    an error thrown, not an empty answer. *)
Lemma format_check_never_fires (env : Env) (req : NextRequest) :
  chooseFormat env = YtdlCore.chooseFormat ->
  ~ no_usable_format env req.
Proof.
  intros Hlib (b & info & sel & _ & _ & _ & Hsel & Hun).
  specialize (Hsel {| files := ∅; ffmpegPath := None |}).
  rewrite (select_format_with_the_package env _ _ Hlib) in Hsel.
  destruct (head (List.filter located_progressive_mp4 (Ytdl.formats info))) as [f|] eqn:Hf;
    simpl in Hsel; [|discriminate Hsel].
  injection Hsel as <-.
  destruct (head_filter_split _ _ _ Hf) as (_ & _ & _ & Hpf & _).
  unfold located_progressive_mp4 in Hpf. apply andb_true_iff in Hpf.
  destruct Hpf as [Hloc _]. apply negb_true_iff in Hloc.
  simpl in Hun. congruence.
Qed.

(** C9.  With the package's [chooseFormat], every response with a text body
    has status 500 and no header.  In particular, when a valid request's
    manifest is fetched and holds no entry that format selection can use (no
    located progressive mp4 entry), the answer is the package's error with
    status 500, after the manifest fetch and before any transcoder run. *)
Theorem failures_answer_500
    (Number_toString : JS.number -> string)
    (env : Env) (req : NextRequest) (w : World) :
  chooseFormat env = YtdlCore.chooseFormat ->
  (forall msg,
     payload (response (POST Number_toString env req w)) = Text msg ->
     status (response (POST Number_toString env req w)) = 500 /\
     headers (response (POST Number_toString env req w)) = []) /\
  (forall b info,
     json req = JS.Fulfilled (JsonProps b) ->
     validateBody (JsonProps b) = JS.Fulfilled tt ->
     getInfo env (JS.the_string (url b)) = JS.Fulfilled info ->
     Forall (fun f => located_progressive_mp4 f = false) (Ytdl.formats info) ->
     payload (response (POST Number_toString env req w))
       = Text "No such format found: highest" /\
     status (response (POST Number_toString env req w)) = 500 /\
     In (CallGetInfo (JS.the_string (url b))) (calls (POST Number_toString env req w)) /\
     forall cmd, ~ In (CallFfmpeg cmd) (calls (POST Number_toString env req w))).
Proof.
  intros Hlib. split.
  - intros msg Hp.
    destruct (text_response_origin Number_toString env req w msg Hp) as [H|(_ & _ & H)];
      [exact H|].
    destruct (format_check_never_fires env req Hlib H).
  - intros b info Hj Hv Hg Hnone.
    assert (Hh : head (List.filter located_progressive_mp4 (Ytdl.formats info)) = None).
    { replace (List.filter _ _) with (@nil Ytdl.videoFormat); [reflexivity|].
      symmetry. induction Hnone as [|f l Hf _ IH]; simpl; [reflexivity|].
      rewrite Hf. exact IH. }
    destruct (format_selection_error Number_toString env req w b info
                (JS.Error "No such format found: highest") Hj Hv Hg)
      as (Hr & Hin & Hno).
    { intros w'. rewrite (select_format_with_the_package env _ _ Hlib), Hh. reflexivity. }
    rewrite Hr. repeat split; assumption.
Qed.

(** With the package's [chooseFormat], a manifest without a located
    progressive mp4 entry makes the first call throw; the second call of the
    [||] is then never made. *)
Lemma fallback_never_called (env : Env) (formats : list Ytdl.videoFormat) (w : World) :
  chooseFormat env = YtdlCore.chooseFormat ->
  Forall (fun f => progressive_mp4 f = false) formats ->
  select_format env formats w =
    (Throw (JS.Error "No such format found: highest"), w,
     [CallChooseFormat formats preferred_options]).
Proof.
  intros Hlib Hnone. unfold select_format, bind, call.
  rewrite Hlib, chooseFormat_preferred.
  replace (List.filter _ formats) with (@nil Ytdl.videoFormat); [reflexivity|].
  symmetry. induction Hnone as [|f l Hf _ IH]; simpl; [reflexivity|].
  rewrite Hf, andb_false_r. exact IH.
Qed.

(** Were the first call to return no format, the second, unfiltered call
    would decide. *)
Lemma fallback_after_empty_answer (env : Env) (formats : list Ytdl.videoFormat) (w : World) :
  chooseFormat env formats preferred_options = JS.Fulfilled None ->
  select_format env formats w =
    (settle (chooseFormat env formats fallback_options), w,
     [CallChooseFormat formats preferred_options;
      CallChooseFormat formats fallback_options]).
Proof.
  intros H. unfold select_format, bind, call. rewrite H. reflexivity.
Qed.

(** ** The handler on the samples *)

(** The request [{url, start: 10, end: 15}] is answered with the clip under
    the file name [clip_10-15.mp4]; the transcoder was asked for 5 seconds
    from second 10, and the artifact is gone. *)
Example sample_request_served :
  let r := POST integral_toString (sample_env mixed_manifest transcoder_ok)
             (request_of sample_body) fresh_world in
  response r =
    {| payload := Bytes clip_bytes;
       status := 200;
       headers :=
         [ ("Content-Type", "video/mp4");
           ("Content-Disposition",
            "attachment; filename=" +:+ dquote +:+ "clip_10-15.mp4" +:+ dquote);
           ("Cache-Control", "no-store") ] |} /\
  calls r =
    [ CallJson; CallRandomUUID; CallSetFfmpegPath sample_ffmpeg;
      CallGetInfo watch_url;
      CallChooseFormat mixed_manifest preferred_options;
      CallDownloadFromInfo {| Ytdl.formats := mixed_manifest |} (download_options mp4_720p);
      CallFfmpeg
        {| Ffmpeg.input := sample_stream;
           Ffmpeg.inputOptions := [];
           Ffmpeg.outputOptions :=
             [ "-ss"; "10"; "-t"; "5"; "-c:v"; "libx264"; "-preset"; "veryfast";
               "-crf"; "23"; "-c:a"; "aac"; "-movflags"; "+faststart" ];
           Ffmpeg.format := "mp4";
           Ffmpeg.output := sample_outFile |};
      CallReadFile sample_outFile;
      CallUnlink sample_outFile ] /\
  files (world r) !! sample_outFile = None.
Proof. repeat split. Qed.

(** The request [{start: 20, end: 20}] is an invalid request. *)
Example zero_length_request_rejected :
  POST integral_toString (sample_env mixed_manifest transcoder_ok)
    (request_of zero_length_body) fresh_world =
    {| response :=
         {| payload := Text "end must be greater than start"; status := 500; headers := [] |};
       world := fresh_world;
       calls := [CallJson] |}.
Proof. reflexivity. Qed.

(** [Math.floor] on some numbers: 10.5, -2.5, 0.5 and -0.5. *)
Example Math_floor_samples :
  JS.Math_floor (S754_finite false 21 (-1)) = JS.of_Z 10 /\
  JS.Math_floor (S754_finite true 5 (-1)) = JS.of_Z (-3) /\
  JS.Math_floor (S754_finite false 1 (-1)) = S754_zero false /\
  JS.Math_floor (S754_finite true 1 (-1)) = JS.of_Z (-1) /\
  JS.Math_floor JS.NaN = JS.NaN /\
  JS.Math_floor JS.Infinity = JS.Infinity.
Proof. repeat split. Qed.

(** C1, on the code.  A transcoder that has started to write the artifact
    and then exits non-zero: the request is answered with its error and
    status 500, no unlink is made, and the partial file is still at the
    allocated path. *)
Theorem crashed_transcode_leaves_artifact :
  let env := sample_env mixed_manifest transcoder_crash in
  let r := POST integral_toString env (request_of sample_body) fresh_world in
  artifact_path env = sample_outFile /\
  response r =
    {| payload := Text "ffmpeg exited with code 1: Conversion failed!";
       status := 500;
       headers := [] |} /\
  calls r =
    [ CallJson; CallRandomUUID; CallSetFfmpegPath sample_ffmpeg;
      CallGetInfo watch_url;
      CallChooseFormat mixed_manifest preferred_options;
      CallDownloadFromInfo {| Ytdl.formats := mixed_manifest |} (download_options mp4_720p);
      CallFfmpeg (clip_command integral_toString sample_stream (JS.of_Z 10) (JS.of_Z 5)
                    sample_outFile) ] /\
  files (world r) !! sample_outFile = Some partial_bytes.
Proof. repeat split. Qed.

(** C4, on the code.  A non-empty manifest without a progressive mp4 entry,
    under the package's [chooseFormat]: the filtered call throws, the
    unfiltered call is never made, and the request fails with status 500
    instead of being served from the best entry of the manifest. *)
Theorem webm_manifest_is_refused :
  let r := POST integral_toString (sample_env webm_manifest transcoder_ok)
             (request_of sample_body) fresh_world in
  webm_manifest <> [] /\
  Forall (fun f => progressive_mp4 f = false) webm_manifest /\
  response r =
    {| payload := Text "No such format found: highest"; status := 500; headers := [] |} /\
  calls r =
    [ CallJson; CallRandomUUID; CallSetFfmpegPath sample_ffmpeg;
      CallGetInfo watch_url;
      CallChooseFormat webm_manifest preferred_options ].
Proof.
  repeat split; try discriminate.
  repeat constructor.
Qed.

(** C6, refuted as stated.  The body [{url, start: 0, end: 1e999}] has an
    infinite end and passes validation. *)
Lemma infinite_end_passes_validation :
  end_ unbounded_body = JS.Number JS.Infinity /\
  JS.is_finite JS.Infinity = false /\
  validateBody (JsonProps unbounded_body) = JS.Fulfilled tt.
Proof. repeat split. Qed.

(** C7, refuted as stated.  The body [{url, start: -5, end: 3}] has a
    negative start, passes validation, and is served: its url goes to the
    manifest fetch and its start to the transcoder. *)
Lemma negative_start_passes_validation :
  let r := POST integral_toString (sample_env mixed_manifest transcoder_ok)
             (request_of negative_start_body) fresh_world in
  start negative_start_body = JS.Number (JS.of_Z (-5)) /\
  JS.ltb (JS.of_Z (-5)) (JS.of_Z 0) = true /\
  validateBody (JsonProps negative_start_body) = JS.Fulfilled tt /\
  status (response r) = 200 /\
  nth_error (calls r) 3 = Some (CallGetInfo watch_url) /\
  nth_error (calls r) 6 =
    Some (CallFfmpeg (clip_command integral_toString sample_stream
                        (JS.of_Z (-5)) (JS.of_Z 8) sample_outFile)).
Proof. repeat split. Qed.

(** C3, refuted as stated.  A progressive mp4 entry without a stream
    locator is passed over: the 360p entry is selected although the manifest,
    sorted best first, holds a progressive mp4 entry of higher rank, and
    where the entry without locator is the only progressive mp4 entry nothing
    is selected at all.  And the selection follows the order of the manifest,
    not a rank: worst first, the 360p entry is selected again. *)
Lemma unlocated_mp4_is_passed_over :
  let select := fun manifest =>
    select_format (sample_env manifest transcoder_ok) manifest fresh_world in
  (In mp4_720p_unlocated unlocated_first_manifest /\
   progressive_mp4 mp4_720p_unlocated = true /\
   best_first sample_rank unlocated_first_manifest /\
   select unlocated_first_manifest =
     (Normal (Some mp4_360p), fresh_world,
      [CallChooseFormat unlocated_first_manifest preferred_options]) /\
   (sample_rank mp4_360p < sample_rank mp4_720p_unlocated)%nat) /\
  (In mp4_720p_unlocated unlocated_manifest /\
   select unlocated_manifest =
     (Throw (JS.Error "No such format found: highest"), fresh_world,
      [CallChooseFormat unlocated_manifest preferred_options])) /\
  (In mp4_720p worst_first_manifest /\
   progressive_mp4 mp4_720p = true /\
   select worst_first_manifest =
     (Normal (Some mp4_360p), fresh_world,
      [CallChooseFormat worst_first_manifest preferred_options]) /\
   (sample_rank mp4_360p < sample_rank mp4_720p)%nat).
Proof.
  repeat split; simpl; auto; try lia.
  repeat constructor; simpl; lia.
Qed.

(** ** The general statements at the samples *)

Lemma invalid_request_stops_at_validation_witness :
  exists msg,
    In msg validation_messages /\
    POST integral_toString (sample_env mixed_manifest transcoder_ok)
      (request_of zero_length_body) fresh_world =
      {| response := {| payload := Text msg; status := 500; headers := [] |};
         world := fresh_world;
         calls := [CallJson] |}.
Proof.
  apply (invalid_request_stops_at_validation integral_toString
           (sample_env mixed_manifest transcoder_ok) (request_of zero_length_body)
           fresh_world zero_length_body).
  - reflexivity.
  - right; right. exists (JS.of_Z 20), (JS.of_Z 20). repeat split.
Defined.

Lemma progressive_mp4_is_preferred_witness :
  exists pre f post,
    mixed_manifest = (pre ++ f :: post)%list /\
    select_format (sample_env mixed_manifest transcoder_ok) mixed_manifest fresh_world =
      (Normal (Some f), fresh_world, [CallChooseFormat mixed_manifest preferred_options]) /\
    (Ytdl.container f = "mp4" /\ Ytdl.hasVideo f = true /\ Ytdl.hasAudio f = true /\
     Ytdl.isHLS f = false /\ Ytdl.isDashMPD f = false) /\
    Ytdl.url_falsy f = false /\
    (forall g, In g pre -> progressive_mp4 g = true -> Ytdl.url_falsy g = true) /\
    (forall rank : Ytdl.videoFormat -> nat,
       best_first rank mixed_manifest ->
       forall g, In g mixed_manifest -> progressive_mp4 g = true ->
         Ytdl.url_falsy g = false -> (rank g <= rank f)%nat).
Proof.
  apply (progressive_mp4_is_preferred
           (sample_env mixed_manifest transcoder_ok) mixed_manifest fresh_world).
  - reflexivity.
  - exists mp4_360p. split; [simpl; auto 6|split; reflexivity].
Defined.

(** The order of [mixed_manifest] is the one of [sample_rank]. *)
Lemma mixed_manifest_best_first : best_first sample_rank mixed_manifest.
Proof. repeat constructor; simpl; lia. Qed.

Lemma transcoder_duration_witness :
  Ffmpeg.arg_after "-t"
    (Ffmpeg.outputOptions
       (clip_command integral_toString sample_stream (JS.of_Z 10) (JS.of_Z 5)
          sample_outFile))
  = Some (integral_toString (JS.Math_max JS.lit_0_01 (JS.sub (JS.of_Z 15) (JS.of_Z 10)))).
Proof.
  apply (transcoder_duration integral_toString
           (sample_env mixed_manifest transcoder_ok) (request_of sample_body)
           fresh_world sample_body).
  - reflexivity.
  - reflexivity.
  - reflexivity.
  - reflexivity.
  - do 6 right. left. reflexivity.
Defined.

Lemma validation_checks_type_and_order_witness :
  validateBody (JsonProps unbounded_body) = JS.Fulfilled tt <->
  JS.leb JS.Infinity (JS.of_Z 0) = false.
Proof.
  apply (proj2 (validation_checks_type_and_order unbounded_body) watch_url).
  - reflexivity.
  - discriminate.
  - reflexivity.
  - reflexivity.
Defined.

Lemma negative_start_is_served_witness :
  let r := POST integral_toString (sample_env mixed_manifest transcoder_ok)
             (request_of negative_start_body) fresh_world in
  validateBody (JsonProps negative_start_body) = JS.Fulfilled tt /\
  In (CallGetInfo watch_url) (calls r) /\
  (forall cmd, In (CallFfmpeg cmd) (calls r) ->
     Ffmpeg.arg_after "-ss" (Ffmpeg.outputOptions cmd)
       = Some (integral_toString (JS.of_Z (-5)))).
Proof.
  apply (negative_start_is_served integral_toString
           (sample_env mixed_manifest transcoder_ok) (request_of negative_start_body)
           fresh_world negative_start_body watch_url (JS.of_Z (-5)) (JS.of_Z 3)).
  - reflexivity.
  - reflexivity.
  - discriminate.
  - reflexivity.
  - reflexivity.
  - reflexivity.
  - reflexivity.
Defined.

Lemma clip_response_headers_witness :
  let r := POST integral_toString (sample_env mixed_manifest transcoder_ok)
             (request_of sample_body) fresh_world in
  exists b s e,
    JS.Fulfilled (JsonProps sample_body) = JS.Fulfilled (JsonProps b) /\
    start b = JS.Number s /\ end_ b = JS.Number e /\
    status (response r) = 200 /\
    headers (response r) =
      [ ("Content-Type", "video/mp4");
        ("Content-Disposition",
         "attachment; filename=" +:+ dquote +:+ "clip_"
           +:+ integral_toString (JS.Math_floor s) +:+ "-"
           +:+ integral_toString (JS.Math_floor e) +:+ ".mp4" +:+ dquote);
        ("Cache-Control", "no-store") ].
Proof.
  apply (clip_response_headers integral_toString
           (sample_env mixed_manifest transcoder_ok) (request_of sample_body)
           fresh_world clip_bytes).
  reflexivity.
Defined.

Lemma failures_answer_500_witness :
  let env := sample_env webm_manifest transcoder_ok in
  let r := POST integral_toString env (request_of sample_body) fresh_world in
  (forall msg, payload (response r) = Text msg ->
     status (response r) = 500 /\ headers (response r) = []) /\
  (forall b info,
     json (request_of sample_body) = JS.Fulfilled (JsonProps b) ->
     validateBody (JsonProps b) = JS.Fulfilled tt ->
     getInfo env (JS.the_string (url b)) = JS.Fulfilled info ->
     Forall (fun f => located_progressive_mp4 f = false) (Ytdl.formats info) ->
     payload (response r) = Text "No such format found: highest" /\
     status (response r) = 500 /\
     In (CallGetInfo (JS.the_string (url b))) (calls r) /\
     forall cmd, ~ In (CallFfmpeg cmd) (calls r)).
Proof.
  apply (failures_answer_500 integral_toString (sample_env webm_manifest transcoder_ok)
           (request_of sample_body) fresh_world).
  reflexivity.
Defined.

Lemma format_field_is_ignored_witness :
  let env := sample_env mixed_manifest transcoder_ok in
  POST integral_toString env (request_of sample_body) fresh_world =
  POST integral_toString env (request_of sample_body_without_format) fresh_world /\
  (forall cmd,
     In (CallFfmpeg cmd)
        (calls (POST integral_toString env (request_of sample_body) fresh_world)) ->
     Ffmpeg.format cmd = "mp4").
Proof.
  apply (format_field_is_ignored integral_toString
           (sample_env mixed_manifest transcoder_ok)
           (request_of sample_body) (request_of sample_body_without_format)
           fresh_world sample_body sample_body_without_format);
    reflexivity.
Defined.

(** * Further properties of the handler *)

(** ** The errors of [validateBody] *)

Lemma has_url_or_lacks (b : Body) : has_url b \/ lacks_url b.
Proof.
  unfold has_url, lacks_url.
  destruct (url b) as [| |x|x|u|] eqn:E; try (right; intros u' [=]; fail);
    try (right; discriminate).
  destruct (String.eqb_spec u "") as [->|Hne].
  - right. intros u' [= <-]. reflexivity.
  - left. exists u. auto.
Qed.

Lemma has_url_not_lacks (b : Body) : has_url b -> ~ lacks_url b.
Proof. intros (u & Eu & Hu) H. apply Hu, H, Eu. Qed.

Lemma validateBody_url_test (b : Body) :
  negb (JS.truthy (url b)) || negb (String.eqb (JS.typeof (url b)) "string") = true
  <-> lacks_url b.
Proof.
  unfold lacks_url. destruct (url b) as [| |x|x|u|]; simpl;
    try (split; [intros _ u' [=] | reflexivity]; fail).
  - destruct x; simpl; (split; [intros _ u' [=] | reflexivity]).
  - destruct x; simpl; (split; [intros _ u' [=] | reflexivity]).
  - rewrite orb_false_r. destruct (String.eqb_spec u "") as [->|Hne]; simpl.
    + split; [intros _ u' [= <-]; reflexivity | reflexivity].
    + split; [discriminate|]. intros H. exfalso. apply Hne, H. reflexivity.
Qed.

Lemma validateBody_bounds_test (b : Body) :
  negb (String.eqb (JS.typeof (start b)) "number")
  || negb (String.eqb (JS.typeof (end_ b)) "number") = true
  <-> lacks_bounds b.
Proof.
  unfold lacks_bounds.
  destruct (start b) as [| |x|x|u|]; simpl;
    try (split; [intros _; left; discriminate | reflexivity]; fail).
  destruct (end_ b) as [| |y|y|u|]; simpl;
    try (split; [intros _; right; discriminate | reflexivity]; fail).
  split; [discriminate|]. intros [H|H]; exfalso; [apply (H x)|apply (H y)]; reflexivity.
Qed.

(** X1.  The three tests of [validateBody] are tried in order and the first
    that fails decides the message: [Missing url] exactly when the url is not
    a non-empty string; [Missing start/end] exactly when the url is fine and
    a bound is not a number; [end must be greater than start] exactly when
    url and bounds are fine and [end <= start]. *)
Theorem validateBody_first_failure_decides (b : Body) :
  (validateBody (JsonProps b) = JS.Rejected (JS.Error "Missing url")
     <-> lacks_url b) /\
  (validateBody (JsonProps b) = JS.Rejected (JS.Error "Missing start/end")
     <-> has_url b /\ lacks_bounds b) /\
  (validateBody (JsonProps b) = JS.Rejected (JS.Error "end must be greater than start")
     <-> has_url b /\ empty_window b).
Proof.
  assert (Hu := validateBody_url_test b).
  assert (Hb := validateBody_bounds_test b).
  unfold validateBody.
  destruct (negb (JS.truthy (url b)) || negb (String.eqb (JS.typeof (url b)) "string")) eqn:Tu.
  - assert (L : lacks_url b) by (apply Hu; reflexivity).
    split; [tauto|].
    split; (split; [discriminate|]);
      intros [H _]; exfalso; exact (has_url_not_lacks b H L).
  - assert (U : has_url b).
    { destruct (has_url_or_lacks b) as [H|H]; [exact H|].
      apply Hu in H. discriminate. }
    assert (NL : ~ lacks_url b) by (apply has_url_not_lacks, U).
    destruct (negb (String.eqb (JS.typeof (start b)) "number")
              || negb (String.eqb (JS.typeof (end_ b)) "number")) eqn:Tb.
    + assert (LB : lacks_bounds b) by (apply Hb; reflexivity).
      split; [split; [discriminate|tauto]|].
      split; [tauto|].
      split; [discriminate|].
      intros [_ (s & e & Es & Ee & _)]. exfalso.
      destruct LB as [H|H]; [apply (H s Es)|apply (H e Ee)].
    + assert (NB : ~ lacks_bounds b).
      { intros H. apply Hb in H. discriminate. }
      destruct (JS.leb (JS.the_number (end_ b)) (JS.the_number (start b))) eqn:Tw.
      * split; [split; [discriminate|tauto]|].
        split; [split; [discriminate|tauto]|].
        split; [|reflexivity].
        intros _. split; [exact U|].
        destruct (start b) as [| |x|x|u|] eqn:Es; simpl in Tb; try discriminate.
        destruct (end_ b) as [| |y|y|u|] eqn:Ee; simpl in Tb; try discriminate.
        exists x, y. auto.
      * split; [split; [discriminate|tauto]|].
        split; [split; [discriminate|tauto]|].
        split; [discriminate|].
        intros [_ (s & e & Es & Ee & Hle)]. rewrite Es, Ee in Tw. simpl in Tw. congruence.
Qed.

(** ** The duration is a number *)

Lemma shr_1_nonneg (mrs : shr_record) : 0 <= shr_m mrs -> 0 <= shr_m (shr_1 mrs).
Proof.
  destruct mrs as [m r s]. simpl. destruct m as [|[p|p|]|[p|p|]]; simpl; lia.
Qed.

Lemma iter_shr_1_nonneg (n : positive) (mrs : shr_record) :
  0 <= shr_m mrs -> 0 <= shr_m (SpecFloat.iter_pos shr_1 n mrs).
Proof.
  revert mrs. induction n as [n IH|n IH|]; intros mrs H; simpl.
  - apply IH, IH, shr_1_nonneg, H.
  - apply IH, IH, H.
  - apply shr_1_nonneg, H.
Qed.

Lemma shr_fexp_nonneg (m e : Z) (l : location) :
  0 <= m -> 0 <= shr_m (fst (shr_fexp JS.prec JS.emax m e l)).
Proof.
  intros H. unfold shr_fexp, shr.
  assert (H0 : 0 <= shr_m (shr_record_of_loc m l)).
  { destruct l as [|[ | | ]]; exact H. }
  destruct (fexp JS.prec JS.emax (Zdigits2 m + e) - e); simpl; auto.
  apply iter_shr_1_nonneg, H0.
Qed.

Lemma binary_round_aux_is_number (s : bool) (m e : Z) (l : location) :
  0 <= m -> JS.is_nan (binary_round_aux JS.prec JS.emax s m e l) = false.
Proof.
  intros H. unfold binary_round_aux.
  assert (H1 := shr_fexp_nonneg m e l H).
  destruct (shr_fexp JS.prec JS.emax m e l) as [mrs' e']. simpl in H1.
  assert (H2 : 0 <= round_nearest_even (shr_m mrs') (loc_of_shr_record mrs')).
  { unfold round_nearest_even.
    destruct (loc_of_shr_record mrs') as [|[ | | ]]; try lia.
    destruct (Z.even (shr_m mrs')); lia. }
  assert (H3 := shr_fexp_nonneg _ e' loc_Exact H2).
  destruct (shr_fexp JS.prec JS.emax _ e' loc_Exact) as [mrs'' e'']. simpl in H3.
  destruct (shr_m mrs'') as [|p|p]; [reflexivity| |lia].
  destruct (e'' <=? JS.emax - JS.prec); reflexivity.
Qed.

Lemma binary_normalize_is_number (m e : Z) (sz : bool) :
  JS.is_nan (binary_normalize JS.prec JS.emax m e sz) = false.
Proof.
  unfold binary_normalize, binary_round.
  destruct m as [|p|p]; [reflexivity| |];
    destruct (shl_align p e _) as [mz ez];
    apply binary_round_aux_is_number; lia.
Qed.

(** A difference of two numbers is NaN only for two infinities of the same
    sign; [end <= start] being false excludes that. *)
Lemma sub_is_number (e s : JS.number) :
  JS.is_nan e = false -> JS.is_nan s = false -> JS.leb e s = false ->
  JS.is_nan (JS.sub e s) = false.
Proof.
  unfold JS.sub, SFsub.
  destruct e as [se|se| |se me ee], s as [ss|ss| |ss ms es]; simpl;
    intros He Hs Hle; try discriminate; try reflexivity.
  all: try (destruct se, ss; first [reflexivity | discriminate Hle]).
  apply binary_normalize_is_number.
Qed.

Lemma ltb_leb (a b : JS.number) : JS.ltb a b = true -> JS.leb a b = true.
Proof.
  unfold JS.ltb, JS.leb, SFltb, SFleb.
  destruct (SFcompare a b) as [[ | | ]|]; congruence.
Qed.

(** [Math.max(0.01, d)] of a number [d] is a number not below 0.01. *)
Lemma Math_max_at_least_0_01 (d : JS.number) :
  JS.is_nan d = false ->
  JS.is_nan (JS.Math_max JS.lit_0_01 d) = false /\
  JS.leb JS.lit_0_01 (JS.Math_max JS.lit_0_01 d) = true.
Proof.
  intros Hd. rewrite Math_max_floor_0_01, Hd.
  destruct (JS.ltb JS.lit_0_01 d) eqn:Hlt.
  - split; [exact Hd|apply ltb_leb, Hlt].
  - split; reflexivity.
Qed.

Section HandlerCoverage.

Variable Number_toString : JS.number -> string.

Local Abbreviation handler := (POST Number_toString).

Ltac open_handler :=
  unfold POST, POST_try, select_format, run_ffmpeg, readFile, unlink,
    setFfmpegPath, bind, call, lift, ret, return_.

Ltac by_outcome :=
  repeat (cbn [settle fst snd app];
          match goal with
          | |- context [settle ?r] => destruct r eqn:?
          | |- context [match ?o with Some _ => _ | None => _ end] => destruct o eqn:?
          | |- context [match ?j with JsonNull => _ | JsonProps _ => _ end] => destruct j eqn:?
          | |- context [if ?c then _ else _] => destruct c eqn:?
          end);
  cbn [settle fst snd app response world calls status payload headers
       error_response no_format_response clip_response].

Ltac pick_call Hin :=
  simpl in Hin;
  repeat match goal with
         | H : _ \/ _ |- _ => destruct H
         | H : False |- _ => contradiction
         | H : _ = CallFfmpeg _ |- _ => first [discriminate H | injection H as <-]
         | H : _ = CallDownloadFromInfo _ _ |- _ =>
             first [discriminate H | injection H as <- <-]
         end.

(** ** The file system *)

(** X2.  The handler touches no file but the artifact of the request: every
    other path holds after the invocation what it held before. *)
Theorem other_files_untouched
    (env : Env) (req : NextRequest) (w : World) (path : string) :
  path <> artifact_path env ->
  files (world (handler env req w)) !! path = files w !! path.
Proof.
  unfold artifact_path. intros Hp.
  open_handler. by_outcome; cbn [files with_files with_ffmpegPath Ffmpeg.output clip_command];
    try reflexivity;
    rewrite ?lookup_delete_ne, ?lookup_insert_ne by congruence; reflexivity.
Qed.

(** X3.  Nothing is written before the transcoder runs: an invocation that
    does not reach the transcoder leaves the file system as it was. *)
Theorem no_transcode_no_file_change
    (env : Env) (req : NextRequest) (w : World) :
  how_many is_transcode (calls (handler env req w)) = 0%nat ->
  files (world (handler env req w)) = files w.
Proof.
  unfold how_many.
  open_handler. by_outcome; cbn [files with_files with_ffmpegPath];
    simpl; intros H; try discriminate H; reflexivity.
Qed.

(** X4.  The bytes of a delivered clip are the contents of the artifact
    after a transcoder run that ended normally: what the run left there, or,
    if it left nothing, what was at that path before.  The removal of the
    artifact is then asked for once the bytes are read; the artifact is gone
    if the file system carries the removal out, and still holds the
    delivered bytes if it refuses. *)
Theorem delivered_bytes_are_the_artifact
    (env : Env) (req : NextRequest) (w : World) (data : list byte) :
  payload (response (handler env req w)) = Bytes data ->
  exists cmd,
    In (CallFfmpeg cmd) (calls (handler env req w)) /\
    Ffmpeg.output cmd = artifact_path env /\
    Ffmpeg.settles (ffmpeg_run env cmd) = JS.Fulfilled tt /\
    (Ffmpeg.leaves (ffmpeg_run env cmd) = Some data \/
     Ffmpeg.leaves (ffmpeg_run env cmd) = None /\
     files w !! artifact_path env = Some data) /\
    In (CallUnlink (artifact_path env)) (calls (handler env req w)) /\
    files (world (handler env req w)) !! artifact_path env =
      (if unlink_removes env (artifact_path env) then None else Some data).
Proof.
  unfold artifact_path.
  open_handler. by_outcome; intros Hp; try discriminate Hp; injection Hp as <-.
  all: eexists; split; [simpl; do 10 (try (left; reflexivity); right); fail|].
  all: cbn [Ffmpeg.output clip_command files with_files with_ffmpegPath] in *.
  all: repeat match goal with u : unit |- _ => destruct u end.
  all: split; [reflexivity|split; [assumption|split; [|split]]].
  all: try (apply lookup_delete_eq).
  all: try (simpl; do 12 (try (left; reflexivity); right); fail).
  all: try assumption.
  all: try (right; split; [assumption|first [assumption|reflexivity]]; fail).
  all: left;
    match goal with
    | H : _ !! _ = Some ?d |- _ = Some ?d =>
        rewrite lookup_insert_eq in H; congruence
    end.
Qed.

(** ** One attempt per stage *)

(** X5.  No stage is repeated within an invocation: at most one manifest
    fetch, at most two format selections, at most one stream open, one
    transcoder run, one read and one removal of the artifact. *)
Theorem every_stage_runs_at_most_once
    (env : Env) (req : NextRequest) (w : World) :
  let cs := calls (handler env req w) in
  (how_many is_manifest_fetch cs <= 1)%nat /\
  (how_many is_selection cs <= 2)%nat /\
  (how_many is_stream_open cs <= 1)%nat /\
  (how_many is_transcode cs <= 1)%nat /\
  (how_many is_artifact_read cs <= 1)%nat /\
  (how_many is_artifact_removal cs <= 1)%nat.
Proof.
  unfold how_many. open_handler. by_outcome; simpl; lia.
Qed.

(** X6.  The stream that is opened is the one of the selected format: the
    manifest is the one fetched for the request's url, the quality option is
    the itag of the format a [chooseFormat] call returned, the second call
    counting only after the first returned nothing, that format has a
    locator, and the options ask for [audioandvideo] with a high water mark
    of 2^25. *)
Theorem stream_is_opened_for_the_selected_format
    (env : Env) (req : NextRequest) (w : World)
    (info : Ytdl.videoInfo) (opts : Ytdl.options) :
  In (CallDownloadFromInfo info opts) (calls (handler env req w)) ->
  exists b f,
    json req = JS.Fulfilled (JsonProps b) /\
    getInfo env (JS.the_string (url b)) = JS.Fulfilled info /\
    (chooseFormat env (Ytdl.formats info) preferred_options = JS.Fulfilled (Some f) \/
     chooseFormat env (Ytdl.formats info) preferred_options = JS.Fulfilled None /\
     chooseFormat env (Ytdl.formats info) fallback_options = JS.Fulfilled (Some f)) /\
    Ytdl.url_falsy f = false /\
    opts = {| Ytdl.filter := Some Ytdl.audioandvideo;
              Ytdl.quality := Some (Ytdl.QualityItag (Ytdl.itag f));
              Ytdl.highWaterMark := Some 33554432 |}.
Proof.
  open_handler. by_outcome; intros Hin; pick_call Hin.
  all: match goal with
       | Hj : json _ = JS.Fulfilled (JsonProps ?b),
         Hf : Ytdl.url_falsy ?f = false |- _ => exists b, f
       end.
  all: repeat split; try assumption; try reflexivity; auto.
Qed.

(** X7.  Every transcoder command reads the stream that was opened, writes
    to the artifact path of the request, takes no input options, and has the
    fixed encoding settings: libx264 video at preset veryfast and crf 23, aac
    audio, and the faststart flag; the seek offset is the rendering of the
    request's start. *)
Theorem transcoder_command_settings
    (env : Env) (req : NextRequest) (w : World) (cmd : Ffmpeg.command) :
  In (CallFfmpeg cmd) (calls (handler env req w)) ->
  exists b info opts,
    json req = JS.Fulfilled (JsonProps b) /\
    In (CallDownloadFromInfo info opts) (calls (handler env req w)) /\
    downloadFromInfo env info opts = JS.Fulfilled (Ffmpeg.input cmd) /\
    Ffmpeg.output cmd = artifact_path env /\
    Ffmpeg.inputOptions cmd = [] /\
    length (Ffmpeg.outputOptions cmd) = 14%nat /\
    Ffmpeg.arg_after "-ss" (Ffmpeg.outputOptions cmd)
      = Some (Number_toString (JS.the_number (start b))) /\
    Ffmpeg.arg_after "-c:v" (Ffmpeg.outputOptions cmd) = Some "libx264" /\
    Ffmpeg.arg_after "-preset" (Ffmpeg.outputOptions cmd) = Some "veryfast" /\
    Ffmpeg.arg_after "-crf" (Ffmpeg.outputOptions cmd) = Some "23" /\
    Ffmpeg.arg_after "-c:a" (Ffmpeg.outputOptions cmd) = Some "aac" /\
    Ffmpeg.arg_after "-movflags" (Ffmpeg.outputOptions cmd) = Some "+faststart".
Proof.
  unfold artifact_path.
  open_handler. by_outcome; intros Hin; pick_call Hin.
  all: match goal with
       | Hj : json _ = JS.Fulfilled (JsonProps ?b),
         Hd : downloadFromInfo _ ?info ?opts = JS.Fulfilled _ |- _ =>
           exists b, info, opts
       end.
  all: split; [first [assumption|reflexivity]|split; [simpl; auto 12|]].
  all: repeat split; first [assumption|reflexivity].
Qed.

(** ** The duration *)

(** X8.  For a request that passed validation with bounds that are not NaN
    (no JSON body can carry NaN), the duration given to the transcoder after
    [-t] is the rendering of a number that is not NaN and not below 0.01. *)
Theorem duration_is_at_least_0_01
    (env : Env) (req : NextRequest) (w : World) (b : Body)
    (s e : JS.number) (cmd : Ffmpeg.command) :
  json req = JS.Fulfilled (JsonProps b) ->
  start b = JS.Number s -> end_ b = JS.Number e ->
  JS.is_nan s = false -> JS.is_nan e = false ->
  In (CallFfmpeg cmd) (calls (handler env req w)) ->
  exists d,
    Ffmpeg.arg_after "-t" (Ffmpeg.outputOptions cmd) = Some (Number_toString d) /\
    JS.is_nan d = false /\
    JS.leb JS.lit_0_01 d = true.
Proof.
  intros Hj Hs He Ns Ne Hin.
  exists (JS.Math_max JS.lit_0_01 (JS.sub e s)).
  revert Hin. open_handler. rewrite Hj. cbn [settle].
  destruct (validateBody (JsonProps b)) as [[]|err] eqn:Hv; cbn [settle];
    [|simpl; intros [H|[]]; discriminate H].
  destruct (validateBody_fulfilled _ Hv)
    as (b' & u' & s' & e' & [= <-] & _ & _ & Es & Ee & Hle).
  rewrite Hs in Es. rewrite He in Ee. injection Es as <-. injection Ee as <-.
  rewrite Hs, He. cbn [JS.the_number].
  assert (Hd := Math_max_at_least_0_01 (JS.sub e s) (sub_is_number e s Ne Ns Hle)).
  by_outcome; intros Hin; pick_call Hin; (split; [reflexivity|exact Hd]).
Qed.

End HandlerCoverage.

(** * Properties of the page *)

(** ** Strings *)

Lemma split_head (sep : ascii) (s : string) :
  exists piece pieces, Str.split sep s = piece :: pieces.
Proof.
  destruct s as [|c rest]; simpl; [eauto|].
  destruct (Ascii.eqb c sep); [eauto|].
  destruct (Str.split sep rest); eauto.
Qed.

(** A string without the separator is one piece. *)
Lemma split_one_piece (sep : ascii) (s : string) :
  ~ In sep (list_ascii_of_string s) -> Str.split sep s = [s].
Proof.
  induction s as [|c rest IH]; simpl; intros H; [reflexivity|].
  destruct (Ascii.eqb_spec c sep) as [->|Hne]; [exfalso; auto|].
  rewrite IH by tauto. reflexivity.
Qed.

(** Splitting cuts at the first separator. *)
Lemma split_first_piece (sep : ascii) (a b : string) :
  ~ In sep (list_ascii_of_string a) ->
  Str.split sep (a +:+ String sep b) = a :: Str.split sep b.
Proof.
  induction a as [|c rest IH]; simpl; intros H.
  - rewrite Ascii.eqb_refl. reflexivity.
  - destruct (Ascii.eqb_spec c sep) as [->|Hne]; [exfalso; auto|].
    rewrite IH by tauto. reflexivity.
Qed.

(** No piece of a split holds the separator. *)
Lemma split_pieces_clean (sep : ascii) (s : string) :
  Forall (fun piece => ~ In sep (list_ascii_of_string piece)) (Str.split sep s).
Proof.
  induction s as [|c rest IH]; simpl.
  - constructor; [intros []|constructor].
  - destruct (Ascii.eqb_spec c sep) as [->|Hne].
    + constructor; [intros []|exact IH].
    + destruct (Str.split sep rest) as [|piece pieces].
      * constructor; [|constructor]. simpl. intros [H|[]]. congruence.
      * inversion IH as [|? ? Hp Hps]; subst. constructor; [|exact Hps].
        simpl. intros [H|H]; [congruence|auto].
Qed.

Lemma prefix_app (p s : string) : String.prefix p (p +:+ s) = true.
Proof.
  induction p as [|c p IH]; simpl; [destruct s; reflexivity|].
  destruct (Ascii.ascii_dec c c); [exact IH|contradiction].
Qed.

Lemma includes_prefix (s sub : string) :
  String.prefix sub s = true -> Str.includes s sub = true.
Proof. intros H. destruct s; cbn [Str.includes]; rewrite H; reflexivity. Qed.

(** A string includes what it has somewhere inside. *)
Lemma includes_infix (pre sub post : string) :
  Str.includes (pre +:+ sub +:+ post) sub = true.
Proof.
  induction pre as [|c pre IH].
  - change ("" +:+ sub +:+ post) with (sub +:+ post).
    apply includes_prefix, prefix_app.
  - change (String c pre +:+ sub +:+ post) with (String c (pre +:+ sub +:+ post)).
    cbn [Str.includes]. rewrite IH. apply orb_true_r.
Qed.

Lemma truthy_nonempty (s : string) : Str.truthy s = true <-> s <> "".
Proof.
  unfold Str.truthy. destruct (String.eqb_spec s ""); simpl; split; congruence.
Qed.

Section VideoIdFacts.

Variable parseURL : string -> option URL.

Local Abbreviation extract := (extractYouTubeId parseURL).

(** ** The video id *)

(** The code-unit ranges of the pattern are the letters, the digits, [_]
    and [-], and nothing else. *)
Lemma id_char_alphabet (c : ascii) :
  Str.id_char c = true <->
  In c (list_ascii_of_string
          "abcdefghijklmnopqrstuvwxyzABCDEFGHIJKLMNOPQRSTUVWXYZ0123456789_-").
Proof.
  set (alphabet := list_ascii_of_string _).
  assert (H : Str.id_char c = existsb (Ascii.eqb c) alphabet).
  { destruct c as [[] [] [] [] [] [] [] []]; vm_compute; reflexivity. }
  rewrite H, existsb_exists. split.
  - intros (x & Hin & Heq). apply Ascii.eqb_eq in Heq. subst x. exact Hin.
  - intros Hin. exists c. split; [exact Hin|apply Ascii.eqb_refl].
Qed.

(** X9.  When the input is not a URL, it is taken as a raw id exactly when it
    is eleven code units long and each of them is one of the 64 characters
    [a] to [z], [A] to [Z], [0] to [9], [_] and [-]; whatever is returned
    then is the input itself. *)
Theorem raw_id_fallback (input : string) :
  parseURL input = None ->
  (extractYouTubeId parseURL input = Some input <->
     String.length input = 11%nat /\
     forall c, In c (list_ascii_of_string input) ->
       In c (list_ascii_of_string
               "abcdefghijklmnopqrstuvwxyzABCDEFGHIJKLMNOPQRSTUVWXYZ0123456789_-")) /\
  (forall id, extractYouTubeId parseURL input = Some id -> id = input).
Proof.
  intros Hp. unfold extractYouTubeId, Str.is_raw_id. rewrite Hp.
  destruct (Nat.eqb_spec (String.length input) 11) as [Hl|Hl]; simpl.
  - destruct (forallb Str.id_char (list_ascii_of_string input)) eqn:Hf.
    + split; [|congruence]. split; [|reflexivity].
      intros _. split; [exact Hl|]. intros c Hc. apply id_char_alphabet.
      rewrite forallb_forall in Hf. exact (Hf c Hc).
    + split; [|discriminate]. split; [discriminate|].
      intros [_ H]. exfalso.
      assert (forallb Str.id_char (list_ascii_of_string input) = true); [|congruence].
      apply forallb_forall. intros c Hc. apply id_char_alphabet, H, Hc.
  - split; [|discriminate]. split; [discriminate|tauto].
Qed.

(** X10.  The four URL shapes give back the id they carry.  For a parsed URL
    and an id that is not empty and has no slash: the path [/ID] on host
    [youtu.be]; and, on a host that includes [youtube.com], the paths
    [/shorts/ID] and [/embed/ID], and the path [/watch] with [ID] as the
    first [v] parameter. *)
Theorem id_is_recovered_from_url (input id : string) (u : URL) :
  parseURL input = Some u ->
  id <> "" -> no_slash id ->
  (hostname u = "youtu.be" -> pathname u = "/" +:+ id -> extract input = Some id) /\
  (hostname u <> "youtu.be" -> Str.includes (hostname u) "youtube.com" = true ->
     (pathname u = "/shorts/" +:+ id -> extract input = Some id) /\
     (pathname u = "/embed/" +:+ id -> extract input = Some id) /\
     (pathname u = "/watch" -> searchParams_get "v" (searchParams u) = Some id ->
        extract input = Some id)).
Proof.
  intros Hp Hne Hns. unfold extractYouTubeId. rewrite Hp.
  assert (Ht : Str.truthy id = true) by (apply truthy_nonempty, Hne).
  split.
  - intros -> ->. reflexivity.
  - intros Hh Hi. destruct (String.eqb_spec (hostname u) "youtu.be"); [contradiction|].
    rewrite Hi. repeat split.
    + intros ->.
      unfold Str.startsWith. rewrite prefix_app.
      change ("/shorts/" +:+ id) with ("" +:+ String slash ("shorts" +:+ String slash id)).
      rewrite split_first_piece by (intros []).
      rewrite split_first_piece
        by (simpl; unfold slash; intuition discriminate).
      rewrite split_one_piece by exact Hns.
      simpl. rewrite Ht. reflexivity.
    + intros ->.
      change (Str.startsWith ("/embed/" +:+ id) "/shorts/") with false. cbv iota.
      change (String.eqb ("/embed/" +:+ id) "/watch") with false. cbv iota.
      change ("/embed/" +:+ id) with ("" +:+ String slash ("embed" +:+ String slash id)).
      rewrite split_first_piece by (intros []).
      rewrite split_first_piece
        by (simpl; unfold slash; intuition discriminate).
      rewrite split_one_piece by exact Hns.
      simpl. rewrite Ht. simpl. rewrite Ht. reflexivity.
    + intros -> Hv. simpl. exact Hv.
Qed.

(** X11.  The host test is a test for a substring: every host name that has
    [youtube.com] somewhere inside, whatever stands before or after it, is
    read like YouTube's own, so that its [/watch] path yields the first [v]
    parameter. *)
Theorem host_is_matched_by_substring (input : string) (u : URL) (before after : string) :
  parseURL input = Some u ->
  hostname u = before +:+ "youtube.com" +:+ after ->
  pathname u = "/watch" ->
  extract input = searchParams_get "v" (searchParams u).
Proof.
  intros Hp Hh Hw. unfold extractYouTubeId. rewrite Hp.
  destruct (String.eqb_spec (hostname u) "youtu.be") as [E|_].
  - exfalso. rewrite Hh in E.
    assert (H : Str.includes "youtu.be" "youtube.com" = true)
      by (rewrite <- E; apply includes_infix).
    discriminate H.
  - rewrite Hh, includes_infix, Hw. reflexivity.
Qed.

(** X12.  An id taken from a path, that is, on a host other than [youtu.be]
    and from a path other than [/watch], is one piece of the path: it is not
    empty and holds no slash. *)
Theorem path_id_is_a_segment (input id : string) (u : URL) :
  parseURL input = Some u ->
  hostname u <> "youtu.be" -> pathname u <> "/watch" ->
  extract input = Some id ->
  id <> "" /\ no_slash id.
Proof.
  intros Hp Hh Hw. unfold extractYouTubeId. rewrite Hp.
  destruct (String.eqb_spec (hostname u) "youtu.be"); [contradiction|].
  destruct (Str.includes (hostname u) "youtube.com"); [|discriminate].
  assert (Hclean := split_pieces_clean slash (pathname u)).
  rewrite List.Forall_forall in Hclean.
  destruct (Str.startsWith (pathname u) "/shorts/").
  - unfold or_null.
    destruct (nth_error (Str.split slash (pathname u)) 2) as [piece|] eqn:En; [|discriminate].
    destruct (Str.truthy piece) eqn:Ht; [|discriminate].
    intros [= <-]. split; [apply truthy_nonempty, Ht|].
    apply Hclean. eapply nth_error_In, En.
  - destruct (String.eqb_spec (pathname u) "/watch"); [contradiction|].
    destruct (Str.indexOf "embed" _) as [idx|]; [|discriminate].
    destruct (nth_error _ (S idx)) as [next|] eqn:En; [|discriminate].
    destruct (Str.truthy next) eqn:Ht; [|discriminate].
    intros [= <-]. split; [apply truthy_nonempty, Ht|].
    apply Hclean. apply nth_error_In in En. apply filter_In in En. tauto.
Qed.

End VideoIdFacts.

Section PageFacts.

Variable parseURL : string -> option URL.
Variable String_trim : string -> string.
Variable Number_toString : JS.number -> string.

(** ** Marks and clips *)

(** [Math.max(0, x || 0)] is a mark time whatever [x] is. *)
Lemma clamped_time_is_a_mark_time (x : JS.number) :
  mark_time (JS.Math_max (JS.of_Z 0) (if JS.truthy (JS.Number x) then x else JS.of_Z 0)).
Proof.
  unfold mark_time.
  destruct x as [s|s| |s m e]; simpl; try (repeat split; discriminate).
  - destruct s; repeat split; discriminate.
  - destruct s; repeat split; discriminate.
Qed.

Lemma read_time_is_a_mark_time (r : TimeRead) : mark_time (getCurrentTime r).
Proof.
  destruct r as [| |x]; [| |apply clamped_time_is_a_mark_time];
    unfold mark_time; simpl; repeat split; discriminate.
Qed.

(** X13.  Whatever the player gives, be it NaN, a negative number, minus
    zero, or nothing at all, the time read for a mark is a number, is not
    below zero, and is not minus zero. *)
Theorem current_time_is_a_mark_time (r : TimeRead) :
  JS.is_nan (getCurrentTime r) = false /\
  JS.leb (JS.of_Z 0) (getCurrentTime r) = true /\
  getCurrentTime r <> S754_zero true.
Proof. exact (read_time_is_a_mark_time r). Qed.

Lemma status_updates_keep_soundness (f : Clip.t -> Clip.t) (cs : list Clip.t) :
  (forall c, Clip.start (f c) = Clip.start c /\ Clip.end_ (f c) = Clip.end_ c) ->
  Forall sound_clip cs -> Forall sound_clip (List.map f cs).
Proof.
  intros Hf H. induction H as [|c cs Hc _ IH]; simpl; constructor; [|exact IH].
  destruct (Hf c) as [Es Ee]. unfold sound_clip in *. rewrite Es, Ee. exact Hc.
Qed.

Lemma mark_downloading_bounds (id : string) (c : Clip.t) :
  Clip.start (mark_downloading id c) = Clip.start c /\
  Clip.end_ (mark_downloading id c) = Clip.end_ c.
Proof. unfold mark_downloading. destruct (String.eqb _ _); split; reflexivity. Qed.

Lemma mark_done_bounds (id blobUrl : string) (c : Clip.t) :
  Clip.start (mark_done id blobUrl c) = Clip.start c /\
  Clip.end_ (mark_done id blobUrl c) = Clip.end_ c.
Proof. unfold mark_done. destruct (String.eqb _ _); split; reflexivity. Qed.

Lemma mark_error_bounds (id message : string) (c : Clip.t) :
  Clip.start (mark_error id message c) = Clip.start c /\
  Clip.end_ (mark_error id message c) = Clip.end_ c.
Proof. unfold mark_error. destruct (String.eqb _ _); split; reflexivity. Qed.

(** [end <= start] false, on numbers, is [start < end]. *)
Lemma not_leb_ltb (s e : JS.number) :
  JS.is_nan s = false -> JS.is_nan e = false ->
  JS.leb e s = false -> JS.ltb s e = true.
Proof.
  unfold JS.leb, JS.ltb, SFleb, SFltb. intros Hs He.
  rewrite (SFcompare_antisym s e).
  destruct (SFcompare s e) as [[ | | ]|] eqn:E; simpl; try congruence.
  destruct s, e; simpl in *; try discriminate;
    repeat match goal with b : bool |- _ => destruct b end; discriminate.
Qed.

Lemma act_keeps_invariant (st : PageState) (a : Action) :
  page_invariant st -> page_invariant (act parseURL String_trim Number_toString st a).
Proof.
  intros (Hs & He & Hc).
  destruct a as [v| |r|r|id|id|fetch mk clip|id|id blobUrl|id message]; simpl.
  - split; [exact Hs|split; [exact He|exact Hc]].
  - unfold loadVideo. destruct (or_null _); simpl;
      (split; [exact Hs|split; [exact He|exact Hc]]).
  - split; [|split; [exact He|exact Hc]].
    simpl. intros s [= <-]. apply read_time_is_a_mark_time.
  - split; [exact Hs|split; [|exact Hc]].
    simpl. intros s [= <-]. apply read_time_is_a_mark_time.
  - assert (Hinv : page_invariant st) by (split; [exact Hs|split; [exact He|exact Hc]]).
    unfold addClip.
    destruct (draftStart st) as [s|] eqn:Es; [|exact Hinv].
    destruct (draftEnd st) as [e|] eqn:Ee; [|exact Hinv].
    destruct (JS.leb e s) eqn:Hle; [exact Hinv|].
    split; [simpl; rewrite Es; exact Hs|split; [simpl; rewrite Ee; exact He|]].
    simpl. apply Forall_app. split; [exact Hc|]. constructor; [|constructor].
    assert (Ms := Hs s eq_refl). assert (Me := He e eq_refl).
    split; [exact Ms|split; [exact Me|]]. simpl.
    apply not_leb_ltb; [apply Ms|apply Me|exact Hle].
  - split; [exact Hs|split; [exact He|]]. simpl.
    rewrite List.Forall_forall in *. intros c Hin.
    apply filter_In in Hin. apply Hc, Hin.
  - unfold downloadClip.
    destruct (String.eqb (inputUrl st) ""); [split; [exact Hs|split; [exact He|exact Hc]]|].
    assert (Hw : Forall sound_clip (List.map (mark_downloading (Clip.id clip)) (clips st))).
    { apply status_updates_keep_soundness; [apply mark_downloading_bounds|exact Hc]. }
    assert (Hfail : forall message,
      Forall sound_clip
        (List.map (mark_error (Clip.id clip) message)
           (List.map (mark_downloading (Clip.id clip)) (clips st)))).
    { intros message. apply status_updates_keep_soundness; [apply mark_error_bounds|exact Hw]. }
    destruct (fetch _) as [res|err]; simpl;
      [|split; [exact Hs|split; [exact He|apply Hfail]]].
    destruct (negb (ok res)).
    + destruct (answer_text res); simpl;
        (split; [exact Hs|split; [exact He|apply Hfail]]).
    + destruct (answer_blob res); simpl;
        (split; [exact Hs|split; [exact He|]]); [|apply Hfail].
      apply status_updates_keep_soundness; [apply mark_done_bounds|exact Hw].
  - split; [exact Hs|split; [exact He|]].
    apply status_updates_keep_soundness; [apply mark_downloading_bounds|exact Hc].
  - split; [exact Hs|split; [exact He|]].
    apply status_updates_keep_soundness; [apply mark_done_bounds|exact Hc].
  - split; [exact Hs|split; [exact He|]].
    apply status_updates_keep_soundness; [apply mark_error_bounds|exact Hc].
Qed.

(** X14.  However the handlers of the page are run and however the updates
    of pending downloads fall between them, every clip in the list has a
    start and an end that are numbers, not below zero, and the start strictly
    before the end. *)
Theorem clips_are_always_sound (actions : list Action) :
  Forall sound_clip (clips (page_after parseURL String_trim Number_toString actions)).
Proof.
  assert (H : page_invariant (page_after parseURL String_trim Number_toString actions)).
  { unfold page_after.
    assert (H0 : page_invariant first_page).
    { repeat split; simpl; try discriminate. constructor. }
    revert H0. generalize first_page.
    induction actions as [|a actions IH]; intros st Hst; simpl; [exact Hst|].
    apply IH, act_keeps_invariant, Hst. }
  apply H.
Qed.

(** ** What the page posts *)

(** A mark time that is strictly before another number, or is finite,
    passes through JSON unchanged. *)
Lemma mark_time_survives_JSON (x : JS.number) :
  mark_time x -> JS.is_finite x = true -> JSON_number x = JS.Number x.
Proof.
  intros (Hn & _ & Hz) Hf.
  destruct x as [s|s| |s m e]; simpl in *; try discriminate; try reflexivity.
  destruct s; [contradiction|reflexivity].
Qed.

Lemma ltb_left_is_finite (s e : JS.number) :
  mark_time s -> JS.ltb s e = true -> JS.is_finite s = true.
Proof.
  intros (Hn & H0 & _) Hlt.
  destruct s as [ss|ss| |ss ms es]; simpl in *; try reflexivity; try discriminate.
  destruct ss; [discriminate H0|].
  destruct e as [se|se| |se me ee]; try discriminate Hlt.
  destruct se; discriminate Hlt.
Qed.

(** X15.  The page and the handler agree on which clips are valid: for a
    sound clip with a finite end, and an input whose trimmed text is not
    empty, the body that [downloadClip] posts passes [validateBody] once it
    has gone through JSON. *)
Theorem posted_clip_passes_validation (st : PageState) (clip : Clip.t) :
  sound_clip clip ->
  JS.is_finite (Clip.end_ clip) = true ->
  String_trim (inputUrl st) <> "" ->
  validateBody (received (posted String_trim st clip)) = JS.Fulfilled tt.
Proof.
  intros (Ms & Me & Hlt) Hf Hu.
  unfold received, posted. cbn [posted_url posted_start posted_end posted_format].
  apply validateBody_accepts
    with (u := String_trim (inputUrl st)) (s := Clip.start clip) (e := Clip.end_ clip);
    cbn [url start end_].
  - reflexivity.
  - exact Hu.
  - apply mark_time_survives_JSON; [exact Ms|]. eapply ltb_left_is_finite; eauto.
  - apply mark_time_survives_JSON; assumption.
  - apply ltb_excludes_leb, Hlt.
Qed.

(** X16.  Two requests the page does send and the handler refuses.  An
    input that is not empty but trims to nothing passes the page's test for
    an empty input: the clip is fetched, with an empty url, which
    [validateBody] refuses as [Missing url].  And a clip whose end is
    infinite is fetched with [null] for the end, refused as
    [Missing start/end]. *)
Theorem posted_clip_refused
    (fetch : Posted -> JS.result Answer) (createObjectURL : list byte -> string)
    (clip : Clip.t) (st : PageState) :
  inputUrl st <> "" ->
  hd_error (snd (downloadClip String_trim Number_toString fetch createObjectURL clip st))
    = Some (Fetch (posted String_trim st clip)) /\
  (String_trim (inputUrl st) = "" ->
     validateBody (received (posted String_trim st clip))
       = JS.Rejected (JS.Error "Missing url")) /\
  (String_trim (inputUrl st) <> "" -> Clip.end_ clip = JS.Infinity ->
     validateBody (received (posted String_trim st clip))
       = JS.Rejected (JS.Error "Missing start/end")).
Proof.
  intros Hin. split.
  - unfold downloadClip. destruct (String.eqb_spec (inputUrl st) ""); [contradiction|].
    destruct (fetch _) as [res|err]; [|reflexivity].
    destruct (negb (ok res)); [destruct (answer_text res)|destruct (answer_blob res)];
      reflexivity.
  - unfold received, posted, validateBody.
    cbn [posted_url posted_start posted_end posted_format url start end_].
    split.
    + intros ->. reflexivity.
    + intros Hu ->. simpl.
      destruct (String.eqb_spec (String_trim (inputUrl st)) ""); [contradiction|].
      simpl. rewrite orb_true_r. reflexivity.
Qed.

(** ** Downloading a clip *)

Lemma touch_done (id blobUrl : string) (c : Clip.t) :
  download_touch id c (mark_done id blobUrl (mark_downloading id c)).
Proof.
  unfold download_touch, mark_done, mark_downloading.
  destruct (String.eqb_spec (Clip.id c) id) as [E|E]; simpl.
  - destruct (String.eqb_spec (Clip.id c) id); [|contradiction]. simpl.
    repeat split; auto. contradiction.
  - destruct (String.eqb_spec (Clip.id c) id); [contradiction|].
    repeat split; auto. contradiction.
Qed.

Lemma touch_error (id message : string) (c : Clip.t) :
  download_touch id c (mark_error id message (mark_downloading id c)).
Proof.
  unfold download_touch, mark_error, mark_downloading.
  destruct (String.eqb_spec (Clip.id c) id) as [E|E]; simpl.
  - destruct (String.eqb_spec (Clip.id c) id); [|contradiction]. simpl.
    repeat split; auto. contradiction.
  - destruct (String.eqb_spec (Clip.id c) id); [contradiction|].
    repeat split; auto. contradiction.
Qed.

Lemma Forall2_map_both {A} (R : A -> A -> Prop) (f : A -> A) (l : list A) :
  (forall x, R x (f x)) -> Forall2 R l (List.map f l).
Proof. intros H. induction l; simpl; constructor; auto. Qed.

(** X17.  With an empty input, [downloadClip] only alerts: nothing is
    fetched and the page is as before.  Otherwise it fetches once, and
    afterwards the list has the same clips in the same order with their ids
    and bounds; clips with another id are as they were, and clips with the
    id of the downloaded clip are done or in error, never left
    downloading. *)
Theorem downloadClip_outcome
    (fetch : Posted -> JS.result Answer) (createObjectURL : list byte -> string)
    (clip : Clip.t) (st : PageState) :
  (inputUrl st = "" ->
     downloadClip String_trim Number_toString fetch createObjectURL clip st
       = (st, [Alert "Provide the original YouTube URL (not just ID)"])) /\
  (inputUrl st <> "" ->
     let (st', effects) :=
       downloadClip String_trim Number_toString fetch createObjectURL clip st in
     hd_error effects = Some (Fetch (posted String_trim st clip)) /\
     length (List.filter is_fetch effects) = 1%nat /\
     inputUrl st' = inputUrl st /\
     Forall2 (download_touch (Clip.id clip)) (clips st) (clips st')).
Proof.
  unfold downloadClip. split.
  - intros ->. reflexivity.
  - intros Hu. destruct (String.eqb_spec (inputUrl st) ""); [contradiction|].
    assert (Hd : forall blobUrl,
      Forall2 (download_touch (Clip.id clip)) (clips st)
        (List.map (mark_done (Clip.id clip) blobUrl)
           (List.map (mark_downloading (Clip.id clip)) (clips st)))).
    { intros blobUrl. rewrite List.map_map. apply Forall2_map_both.
      intros c. apply touch_done. }
    assert (He : forall message,
      Forall2 (download_touch (Clip.id clip)) (clips st)
        (List.map (mark_error (Clip.id clip) message)
           (List.map (mark_downloading (Clip.id clip)) (clips st)))).
    { intros message. rewrite List.map_map. apply Forall2_map_both.
      intros c. apply touch_error. }
    destruct (fetch _) as [res|err]; [|repeat split; apply He].
    destruct (negb (ok res)).
    + destruct (answer_text res); repeat split; apply He.
    + destruct (answer_blob res); repeat split; first [apply Hd|apply He].
Qed.

(** ** The page in front of the handler *)

Lemma served_status (env : Env) (req : NextRequest) (w : World) :
  (forall data, payload (response (POST Number_toString env req w)) = Bytes data ->
     status (response (POST Number_toString env req w)) = 200) /\
  (forall message, payload (response (POST Number_toString env req w)) = Text message ->
     status (response (POST Number_toString env req w)) = 500 \/
     status (response (POST Number_toString env req w)) = 400).
Proof.
  unfold POST, POST_try, select_format, run_ffmpeg, readFile, unlink,
    setFfmpegPath, bind, call, lift, ret, return_.
  repeat (cbn [settle fst snd app];
          match goal with
          | |- context [settle ?r] => destruct r eqn:?
          | |- context [match ?o with Some _ => _ | None => _ end] => destruct o eqn:?
          | |- context [match ?j with JsonNull => _ | JsonProps _ => _ end] => destruct j eqn:?
          | |- context [if ?c then _ else _] => destruct c eqn:?
          end);
    cbn [settle fst snd app response payload headers status error_response
         no_format_response clip_response];
    (split; [intros data Hp|intros message Hp]); try discriminate Hp; auto.
Qed.

(** X18.  When the handler answers the page's fetch, the page shows what the
    handler decided: a response with the clip's bytes makes the clips with
    that id done, with the object URL of those bytes, and starts the
    download; a response with a message puts them in error with that
    message, or with [Request failed with] and the status when the message
    is empty. *)
Theorem page_shows_the_handlers_answer
    (env : Env) (w : World)
    (fetch : Posted -> JS.result Answer) (createObjectURL : list byte -> string)
    (clip : Clip.t) (st : PageState) (res : Answer) :
  let r := response (POST Number_toString env
                       {| json := JS.Fulfilled (received (posted String_trim st clip)) |} w) in
  let working := List.map (mark_downloading (Clip.id clip)) (clips st) in
  inputUrl st <> "" ->
  fetch (posted String_trim st clip) = JS.Fulfilled res ->
  delivers r res ->
  (forall data, payload r = Bytes data ->
     downloadClip String_trim Number_toString fetch createObjectURL clip st =
       (with_clips (List.map (mark_done (Clip.id clip) (createObjectURL data)) working) st,
        [Fetch (posted String_trim st clip);
         Download (createObjectURL data) (download_name Number_toString clip)])) /\
  (forall message, payload r = Text message ->
     downloadClip String_trim Number_toString fetch createObjectURL clip st =
       (with_clips
          (List.map (mark_error (Clip.id clip) (refusal_message (status r) message)) working)
          st,
        [Fetch (posted String_trim st clip)])).
Proof.
  intros r working Hu Hf (Hs & Ht & Hb).
  assert (Hst := served_status env
                   {| json := JS.Fulfilled (received (posted String_trim st clip)) |} w).
  fold r in Hst.
  unfold downloadClip.
  destruct (String.eqb_spec (inputUrl st) ""); [contradiction|].
  rewrite Hf. unfold ok. rewrite Hs. split.
  - intros data Hp. rewrite (proj1 Hst data Hp). simpl.
    rewrite (Hb data Hp). reflexivity.
  - intros message Hp.
    assert (Hno : negb ((200 <=? status r) && (status r <=? 299)) = true).
    { destruct (proj2 Hst message Hp) as [-> | ->]; reflexivity. }
    rewrite Hno, (Ht message Hp). fold (refusal_message (status r) message).
    assert (Hm : error_text (JS.Error (refusal_message (status r) message))
                 = refusal_message (status r) message).
    { unfold error_text, JS.Error, refusal_message.
      destruct (Str.truthy message) eqn:Tm.
      - apply truthy_nonempty in Tm.
        destruct (String.eqb_spec message ""); [contradiction|reflexivity].
      - reflexivity. }
    rewrite Hm. reflexivity.
Qed.

Lemma append_assoc (a b c : string) : (a +:+ b) +:+ c = a +:+ b +:+ c.
Proof.
  induction a as [|x a IH]; [reflexivity|].
  change (String x ((a +:+ b) +:+ c) = String x (a +:+ b +:+ c)). f_equal. exact IH.
Qed.

(** X19.  The file name the page gives to the download is the file name the
    handler suggests: for a clip whose bounds pass through JSON unchanged,
    the [Content-Disposition] header of the handler's response to the posted
    clip is [attachment; filename=] followed by the page's download name in
    double quotes. *)
Theorem download_name_matches_the_header
    (env : Env) (w : World) (clip : Clip.t) (st : PageState) (data : list byte) :
  let r := response (POST Number_toString env
                       {| json := JS.Fulfilled (received (posted String_trim st clip)) |} w) in
  JSON_number (Clip.start clip) = JS.Number (Clip.start clip) ->
  JSON_number (Clip.end_ clip) = JS.Number (Clip.end_ clip) ->
  payload r = Bytes data ->
  In ("Content-Disposition",
      "attachment; filename=" +:+ dquote
        +:+ download_name Number_toString clip +:+ dquote)
     (headers r).
Proof.
  intros r Js Je. subst r.
  unfold download_name. rewrite !append_assoc.
  unfold POST, POST_try, select_format, run_ffmpeg, readFile, unlink,
    setFfmpegPath, bind, call, lift, ret, return_.
  unfold received, posted.
  cbn [json settle posted_url posted_start posted_end posted_format url start end_].
  rewrite Js, Je. cbn [JS.the_number].
  repeat (cbn [settle fst snd app];
          match goal with
          | |- context [settle ?r] => destruct r eqn:?
          | |- context [match ?o with Some _ => _ | None => _ end] => destruct o eqn:?
          | |- context [if ?c then _ else _] => destruct c eqn:?
          end);
    cbn [settle fst snd app response payload headers error_response
         no_format_response clip_response];
    intros Hp; try discriminate Hp.
  all: right; left; reflexivity.
Qed.

(** ** The label of a mark *)

Lemma same_number_eq (a b : JS.number) : same_number a b = true -> a = b.
Proof.
  destruct a as [s|s| |s m e], b as [s'|s'| |s' m' e']; simpl; try discriminate;
    try reflexivity.
  - intros H. apply Bool.eqb_prop in H. congruence.
  - intros H. apply Bool.eqb_prop in H. congruence.
  - rewrite !andb_true_iff. intros [[Hs Hm] He].
    apply Bool.eqb_prop in Hs. apply Pos.eqb_eq in Hm. apply Z.eqb_eq in He.
    congruence.
Qed.

Lemma minutes_and_seconds_checked :
  forallb minutes_and_seconds_agree (seq 0 (Z.to_nat 6000)) = true.
Proof. vm_compute. reflexivity. Qed.

Lemma minutes_and_seconds (z : Z) :
  0 <= z < 6000 ->
  JS.Math_floor (JS_div (JS.of_Z z) (JS.of_Z 60)) = JS.of_Z (z / 60) /\
  JS_rem (JS.of_Z z) (JS.of_Z 60) = JS.of_Z (z mod 60).
Proof.
  intros Hz.
  assert (H := minutes_and_seconds_checked).
  rewrite forallb_forall in H.
  specialize (H (Z.to_nat z)).
  assert (Hin : In (Z.to_nat z) (seq 0 (Z.to_nat 6000))) by (apply in_seq; lia).
  apply H in Hin. unfold minutes_and_seconds_agree in Hin.
  rewrite Z2Nat.id in Hin by lia.
  apply andb_true_iff in Hin. destruct Hin as [H1 H2].
  split; apply same_number_eq; assumption.
Qed.

(** The whole seconds of a mark time given as a binary64 number in normal
    form, when they are few, are a small integer. *)
Lemma floor_of_small_mark (t : JS.number) (z : Z) :
  valid_binary JS.prec JS.emax t = true ->
  mark_time t ->
  JS.to_integer (JS.Math_floor t) = Some z -> z < 2 ^ 52 ->
  JS.Math_floor t = JS.of_Z z /\ 0 <= z.
Proof.
  intros Hv (Hn & H0 & Hz) Hi Hsmall.
  destruct t as [s|s| |s m e]; try discriminate.
  - destruct s; [contradiction|]. simpl in Hi. injection Hi as <-. split; [reflexivity|lia].
  - destruct s; [discriminate H0|].
    simpl in Hv. unfold bounded, canonical_mantissa in Hv.
    apply andb_true_iff in Hv. destruct Hv as [Hc _]. apply Z.eqb_eq in Hc.
    unfold fexp, emin, JS.prec, JS.emax in Hc.
    assert (Hd : Zpos (digits2_pos m) <= 53) by lia.
    assert (Hm : Zpos m < 2 ^ 53).
    { rewrite digits2_pos_size in Hd. assert (G := Pos.size_gt m).
      assert (Zpos m < Zpos (2 ^ Pos.size m)) by exact G.
      rewrite Pos2Z.inj_pow in H.
      assert (2 ^ Zpos (Pos.size m) <= 2 ^ 53) by (apply Z.pow_le_mono_r; lia). lia. }
    destruct (Z.leb_spec 0 e) as [He|He].
    + exfalso. unfold JS.Math_floor, JS.to_integer in Hi.
      destruct (Z.leb_spec 0 e) as [_|?]; [|lia].
      destruct (Z.leb_spec 0 e) as [_|?]; [|lia].
      injection Hi as <-. simpl in Hsmall.
      assert (Hd53 : Zpos (digits2_pos m) = 53) by lia.
      rewrite digits2_pos_size in Hd53.
      assert (G := Pos.size_le m).
      assert (Zpos (2 ^ Pos.size m) <= Zpos m~0) by exact G.
      rewrite Pos2Z.inj_pow, Hd53 in H. change (Zpos m~0) with (2 * Zpos m) in H.
      rewrite Z.shiftl_mul_pow2 in Hsmall by lia.
      assert (0 < 2 ^ e) by (apply Z.pow_pos_nonneg; lia).
      change (2 ^ 53) with (2 * 2 ^ 52) in H. nia.
    + assert (Hfl := Math_floor_is_floor false m e He Hm).
      rewrite Hi in Hfl. injection Hfl as ->. simpl cond_Zopp.
      split; [|apply Z.div_pos; [lia|apply Z.pow_pos_nonneg; lia]].
      unfold JS.Math_floor. destruct (Z.leb_spec 0 e) as [?|_]; [lia|].
      rewrite Z.shiftr_div_pow2 by lia. reflexivity.
Qed.

(** X20.  The label of a mark below one hundred minutes is minutes and
    seconds of its whole seconds, each written with two digits: for a mark
    time [t] in binary64 normal form whose floor [z] is below 6000, [fmt t]
    is [z / 60] and [z mod 60] in decimal, padded with a zero to two places,
    with a colon between them. *)
Theorem fmt_is_minutes_and_seconds (t : JS.number) (z : Z) :
  renders_small_integers Number_toString ->
  valid_binary JS.prec JS.emax t = true ->
  mark_time t ->
  JS.to_integer (JS.Math_floor t) = Some z -> z < 6000 ->
  fmt Number_toString (Some t)
    = padStart 2 "0" (decimal (z / 60)) +:+ ":" +:+ padStart 2 "0" (decimal (z mod 60)).
Proof.
  intros Hr Hv Hm Hi Hz.
  destruct (floor_of_small_mark t z Hv Hm Hi ltac:(lia)) as [Hf H0].
  destruct (minutes_and_seconds z ltac:(lia)) as [Hq Hs].
  unfold fmt. destruct Hm as (Hn & _). rewrite Hn, Hf, Hq, Hs.
  rewrite !Hr; [reflexivity| |].
  - assert (0 <= z mod 60 < 60) by (apply Z.mod_pos_bound; lia). lia.
  - assert (z / 60 < 100) by (apply Z.div_lt_upper_bound; lia).
    assert (0 <= z / 60) by (apply Z.div_pos; lia). lia.
Qed.

(** ** The loaded video *)

Lemma or_null_nonempty (x : option string) (id : string) :
  or_null x = Some id -> id <> "".
Proof.
  unfold or_null. destruct x as [s|]; [|discriminate].
  destruct (Str.truthy s) eqn:Ht; [|discriminate].
  intros [= <-]. apply truthy_nonempty, Ht.
Qed.

Lemma act_keeps_video_id (st : PageState) (a : Action) :
  (forall id, videoId st = Some id -> id <> "") ->
  forall id, videoId (act parseURL String_trim Number_toString st a) = Some id -> id <> "".
Proof.
  intros H.
  destruct a as [v| |r|r|i|i|fetch mk clip|i|i blobUrl|i message]; simpl; try exact H.
  - unfold loadVideo.
    destruct (or_null _) as [i|] eqn:E; simpl; [|exact H].
    intros id [= <-]. eapply or_null_nonempty, E.
  - unfold addClip. destruct (draftStart st); [|exact H].
    destruct (draftEnd st); [|exact H]. destruct (JS.leb _ _); exact H.
  - unfold downloadClip. destruct (String.eqb _ _); [exact H|].
    destruct (fetch _) as [res|]; [|exact H].
    destruct (negb (ok res)); [destruct (answer_text res)|destruct (answer_blob res)];
      exact H.
Qed.

(** X21.  However the handlers are run, the video id of the page, once set,
    is never the empty string: an input from which only an empty id can be
    read, such as the bare host [youtu.be], is refused with the alert. *)
Theorem loaded_video_id_is_never_empty (actions : list Action) (id : string) :
  videoId (page_after parseURL String_trim Number_toString actions) = Some id ->
  id <> "".
Proof.
  unfold page_after.
  assert (H0 : forall i, videoId first_page = Some i -> i <> "") by discriminate.
  revert H0 id. generalize first_page.
  induction actions as [|a actions IH]; intros st Hst; simpl; [exact Hst|].
  apply IH, act_keeps_video_id, Hst.
Qed.

End PageFacts.

(** * The further statements at the samples *)

Lemma integral_toString_small : renders_small_integers integral_toString.
Proof.
  intros z Hz. unfold integral_toString.
  assert (Hi : JS.to_integer (JS.of_Z z) = Some z).
  { unfold JS.of_Z. apply binary_normalize_integer.
    assert (2 ^ 7 < 2 ^ 53) by (apply Z.pow_lt_mono_r; lia). lia. }
  assert (Hb : (Z.abs z <=? 2 ^ 53) = true).
  { apply Z.leb_le. assert (2 ^ 7 < 2 ^ 53) by (apply Z.pow_lt_mono_r; lia). lia. }
  destruct (JS.of_Z z) as [s|s| |s m e]; try discriminate Hi;
    rewrite Hi, Hb; reflexivity.
Qed.

Lemma other_files_untouched_witness :
  files (world (POST integral_toString (sample_env mixed_manifest transcoder_ok)
                  (request_of sample_body) busy_world)) !! "/tmp/clip_other.mp4"
  = files busy_world !! "/tmp/clip_other.mp4".
Proof.
  apply (other_files_untouched integral_toString
           (sample_env mixed_manifest transcoder_ok) (request_of sample_body)
           busy_world "/tmp/clip_other.mp4").
  discriminate.
Defined.

Lemma no_transcode_no_file_change_witness :
  files (world (POST integral_toString (sample_env webm_manifest transcoder_ok)
                  (request_of sample_body) busy_world))
  = files busy_world.
Proof.
  apply (no_transcode_no_file_change integral_toString
           (sample_env webm_manifest transcoder_ok) (request_of sample_body) busy_world).
  reflexivity.
Defined.

(** A request served on a file system that refuses removals. *)
Lemma delivered_bytes_are_the_artifact_witness :
  let env := refusing_removal (sample_env mixed_manifest transcoder_ok) in
  let r := POST integral_toString env (request_of sample_body) fresh_world in
  exists cmd,
    In (CallFfmpeg cmd) (calls r) /\
    Ffmpeg.output cmd = artifact_path env /\
    Ffmpeg.settles (ffmpeg_run env cmd) = JS.Fulfilled tt /\
    (Ffmpeg.leaves (ffmpeg_run env cmd) = Some clip_bytes \/
     Ffmpeg.leaves (ffmpeg_run env cmd) = None /\
     files fresh_world !! artifact_path env = Some clip_bytes) /\
    In (CallUnlink (artifact_path env)) (calls r) /\
    files (world r) !! artifact_path env =
      (if unlink_removes env (artifact_path env) then None else Some clip_bytes).
Proof.
  apply (delivered_bytes_are_the_artifact integral_toString
           (refusing_removal (sample_env mixed_manifest transcoder_ok))
           (request_of sample_body) fresh_world clip_bytes).
  reflexivity.
Defined.

(** On that file system the artifact of a delivered clip stays behind. *)
Example refused_removal_keeps_artifact :
  let env := refusing_removal (sample_env mixed_manifest transcoder_ok) in
  let r := POST integral_toString env (request_of sample_body) fresh_world in
  payload (response r) = Bytes clip_bytes /\
  status (response r) = 200 /\
  files (world r) !! sample_outFile = Some clip_bytes.
Proof. repeat split. Qed.

Lemma stream_is_opened_for_the_selected_format_witness :
  let env := sample_env mixed_manifest transcoder_ok in
  let info := {| Ytdl.formats := mixed_manifest |} in
  exists b f,
    json (request_of sample_body) = JS.Fulfilled (JsonProps b) /\
    getInfo env (JS.the_string (url b)) = JS.Fulfilled info /\
    (chooseFormat env (Ytdl.formats info) preferred_options = JS.Fulfilled (Some f) \/
     chooseFormat env (Ytdl.formats info) preferred_options = JS.Fulfilled None /\
     chooseFormat env (Ytdl.formats info) fallback_options = JS.Fulfilled (Some f)) /\
    Ytdl.url_falsy f = false /\
    download_options mp4_720p =
      {| Ytdl.filter := Some Ytdl.audioandvideo;
         Ytdl.quality := Some (Ytdl.QualityItag (Ytdl.itag f));
         Ytdl.highWaterMark := Some 33554432 |}.
Proof.
  apply (stream_is_opened_for_the_selected_format integral_toString
           (sample_env mixed_manifest transcoder_ok) (request_of sample_body) fresh_world
           {| Ytdl.formats := mixed_manifest |} (download_options mp4_720p)).
  do 5 right. left. reflexivity.
Defined.

Lemma transcoder_command_settings_witness :
  let env := sample_env mixed_manifest transcoder_ok in
  let r := POST integral_toString env (request_of sample_body) fresh_world in
  let cmd := clip_command integral_toString sample_stream (JS.of_Z 10) (JS.of_Z 5)
               sample_outFile in
  exists b info opts,
    json (request_of sample_body) = JS.Fulfilled (JsonProps b) /\
    In (CallDownloadFromInfo info opts) (calls r) /\
    downloadFromInfo env info opts = JS.Fulfilled (Ffmpeg.input cmd) /\
    Ffmpeg.output cmd = artifact_path env /\
    Ffmpeg.inputOptions cmd = [] /\
    length (Ffmpeg.outputOptions cmd) = 14%nat /\
    Ffmpeg.arg_after "-ss" (Ffmpeg.outputOptions cmd)
      = Some (integral_toString (JS.the_number (start b))) /\
    Ffmpeg.arg_after "-c:v" (Ffmpeg.outputOptions cmd) = Some "libx264" /\
    Ffmpeg.arg_after "-preset" (Ffmpeg.outputOptions cmd) = Some "veryfast" /\
    Ffmpeg.arg_after "-crf" (Ffmpeg.outputOptions cmd) = Some "23" /\
    Ffmpeg.arg_after "-c:a" (Ffmpeg.outputOptions cmd) = Some "aac" /\
    Ffmpeg.arg_after "-movflags" (Ffmpeg.outputOptions cmd) = Some "+faststart".
Proof.
  apply (transcoder_command_settings integral_toString
           (sample_env mixed_manifest transcoder_ok) (request_of sample_body) fresh_world
           (clip_command integral_toString sample_stream (JS.of_Z 10) (JS.of_Z 5)
              sample_outFile)).
  do 6 right. left. reflexivity.
Defined.

Lemma duration_is_at_least_0_01_witness :
  exists d,
    Ffmpeg.arg_after "-t"
      (Ffmpeg.outputOptions
         (clip_command integral_toString sample_stream (JS.of_Z 10) (JS.of_Z 5)
            sample_outFile))
      = Some (integral_toString d) /\
    JS.is_nan d = false /\
    JS.leb JS.lit_0_01 d = true.
Proof.
  apply (duration_is_at_least_0_01 integral_toString
           (sample_env mixed_manifest transcoder_ok) (request_of sample_body) fresh_world
           sample_body (JS.of_Z 10) (JS.of_Z 15)).
  - reflexivity.
  - reflexivity.
  - reflexivity.
  - reflexivity.
  - reflexivity.
  - do 6 right. left. reflexivity.
Defined.

Lemma raw_id_fallback_witness :
  (extractYouTubeId sample_parseURL sample_video_id = Some sample_video_id <->
     String.length sample_video_id = 11%nat /\
     forall c, In c (list_ascii_of_string sample_video_id) ->
       In c (list_ascii_of_string
               "abcdefghijklmnopqrstuvwxyzABCDEFGHIJKLMNOPQRSTUVWXYZ0123456789_-")) /\
  (forall id, extractYouTubeId sample_parseURL sample_video_id = Some id ->
     id = sample_video_id).
Proof.
  apply (raw_id_fallback sample_parseURL sample_video_id).
  reflexivity.
Defined.

Lemma id_is_recovered_from_url_witness :
  let u := {| hostname := "www.youtube.com"; pathname := "/shorts/aqz-KE-bpKQ";
              searchParams := [] |} in
  let input := "https://www.youtube.com/shorts/aqz-KE-bpKQ" in
  (hostname u = "youtu.be" -> pathname u = "/" +:+ sample_video_id ->
     extractYouTubeId sample_parseURL input = Some sample_video_id) /\
  (hostname u <> "youtu.be" -> Str.includes (hostname u) "youtube.com" = true ->
     (pathname u = "/shorts/" +:+ sample_video_id ->
        extractYouTubeId sample_parseURL input = Some sample_video_id) /\
     (pathname u = "/embed/" +:+ sample_video_id ->
        extractYouTubeId sample_parseURL input = Some sample_video_id) /\
     (pathname u = "/watch" ->
        searchParams_get "v" (searchParams u) = Some sample_video_id ->
        extractYouTubeId sample_parseURL input = Some sample_video_id)).
Proof.
  apply (id_is_recovered_from_url sample_parseURL
           "https://www.youtube.com/shorts/aqz-KE-bpKQ" sample_video_id
           {| hostname := "www.youtube.com"; pathname := "/shorts/aqz-KE-bpKQ";
              searchParams := [] |}).
  - reflexivity.
  - discriminate.
  - unfold no_slash, slash. simpl. intuition discriminate.
Defined.

Lemma host_is_matched_by_substring_witness :
  extractYouTubeId sample_parseURL "https://youtube.com.example.org/watch?v=aqz-KE-bpKQ"
  = searchParams_get "v" [("v", sample_video_id)].
Proof.
  apply (host_is_matched_by_substring sample_parseURL
           "https://youtube.com.example.org/watch?v=aqz-KE-bpKQ"
           {| hostname := "youtube.com.example.org"; pathname := "/watch";
              searchParams := [("v", sample_video_id)] |}
           "" ".example.org").
  - reflexivity.
  - reflexivity.
  - reflexivity.
Defined.

Lemma path_id_is_a_segment_witness :
  sample_video_id <> "" /\ no_slash sample_video_id.
Proof.
  apply (path_id_is_a_segment sample_parseURL
           "https://www.youtube.com/embed/aqz-KE-bpKQ" sample_video_id
           {| hostname := "www.youtube.com"; pathname := "/embed/aqz-KE-bpKQ";
              searchParams := [] |}).
  - reflexivity.
  - discriminate.
  - discriminate.
  - reflexivity.
Defined.

Lemma sample_clip_is_sound : sound_clip sample_clip.
Proof. repeat split; try reflexivity; discriminate. Qed.

Lemma posted_clip_passes_validation_witness :
  validateBody (received (posted sample_trim sample_page sample_clip)) = JS.Fulfilled tt.
Proof.
  apply (posted_clip_passes_validation sample_trim sample_page sample_clip).
  - repeat split; try reflexivity; discriminate.
  - reflexivity.
  - discriminate.
Defined.

(** An input of one space, which the sample trimming is not made for, trimmed
    to nothing. *)
Lemma posted_clip_refused_witness :
  let blank := {| inputUrl := " "; videoId := None; clips := [sample_clip];
                  draftStart := None; draftEnd := None |} in
  let trim := fun _ : string => "" in
  hd_error (snd (downloadClip trim integral_toString
                   (fetch_from (sample_env mixed_manifest transcoder_ok))
                   sample_object_url sample_clip blank))
    = Some (Fetch (posted trim blank sample_clip)) /\
  (trim (inputUrl blank) = "" ->
     validateBody (received (posted trim blank sample_clip))
       = JS.Rejected (JS.Error "Missing url")) /\
  (trim (inputUrl blank) <> "" -> Clip.end_ sample_clip = JS.Infinity ->
     validateBody (received (posted trim blank sample_clip))
       = JS.Rejected (JS.Error "Missing start/end")).
Proof.
  apply (posted_clip_refused (fun _ : string => "") integral_toString
           (fetch_from (sample_env mixed_manifest transcoder_ok)) sample_object_url
           sample_clip
           {| inputUrl := " "; videoId := None; clips := [sample_clip];
              draftStart := None; draftEnd := None |}).
  discriminate.
Defined.

Lemma page_shows_the_handlers_answer_witness :
  let env := sample_env mixed_manifest transcoder_crash in
  let r := response (POST integral_toString env
                       {| json := JS.Fulfilled (received (posted sample_trim sample_page sample_clip)) |}
                       fresh_world) in
  let working := List.map (mark_downloading (Clip.id sample_clip)) (clips sample_page) in
  (forall data, payload r = Bytes data ->
     downloadClip sample_trim integral_toString (fetch_from env) sample_object_url
       sample_clip sample_page =
       (with_clips
          (List.map (mark_done (Clip.id sample_clip) (sample_object_url data)) working)
          sample_page,
        [Fetch (posted sample_trim sample_page sample_clip);
         Download (sample_object_url data) (download_name integral_toString sample_clip)])) /\
  (forall message, payload r = Text message ->
     downloadClip sample_trim integral_toString (fetch_from env) sample_object_url
       sample_clip sample_page =
       (with_clips
          (List.map (mark_error (Clip.id sample_clip) (refusal_message (status r) message))
             working)
          sample_page,
        [Fetch (posted sample_trim sample_page sample_clip)])).
Proof.
  apply (page_shows_the_handlers_answer sample_trim integral_toString
           (sample_env mixed_manifest transcoder_crash) fresh_world
           (fetch_from (sample_env mixed_manifest transcoder_crash)) sample_object_url
           sample_clip sample_page
           (answer_of (response (POST integral_toString
                                   (sample_env mixed_manifest transcoder_crash)
                                   {| json := JS.Fulfilled
                                                (received (posted sample_trim sample_page
                                                             sample_clip)) |}
                                   fresh_world)))).
  - discriminate.
  - reflexivity.
  - repeat split; try reflexivity; intros ? H; try discriminate H;
      injection H as <-; reflexivity.
Defined.

Lemma download_name_matches_the_header_witness :
  let r := response (POST integral_toString (sample_env mixed_manifest transcoder_ok)
                       {| json := JS.Fulfilled (received (posted sample_trim sample_page sample_clip)) |}
                       fresh_world) in
  In ("Content-Disposition",
      "attachment; filename=" +:+ dquote
        +:+ download_name integral_toString sample_clip +:+ dquote)
     (headers r).
Proof.
  apply (download_name_matches_the_header sample_trim integral_toString
           (sample_env mixed_manifest transcoder_ok) fresh_world sample_clip sample_page
           clip_bytes).
  - reflexivity.
  - reflexivity.
  - reflexivity.
Defined.

Lemma fmt_is_minutes_and_seconds_witness :
  fmt integral_toString (Some sample_mark)
    = padStart 2 "0" (decimal (75 / 60)) +:+ ":" +:+ padStart 2 "0" (decimal (75 mod 60)).
Proof.
  apply (fmt_is_minutes_and_seconds integral_toString sample_mark 75).
  - exact integral_toString_small.
  - reflexivity.
  - repeat split; try reflexivity; discriminate.
  - reflexivity.
  - lia.
Defined.

Lemma loaded_video_id_is_never_empty_witness : sample_video_id <> "".
Proof.
  apply (loaded_video_id_is_never_empty sample_parseURL sample_trim integral_toString
           [SetInputUrl watch_url; LoadVideo] sample_video_id).
  reflexivity.
Defined.

(** The label of the sample mark 75.5 is [01:15]. *)
Example sample_mark_label : fmt integral_toString (Some sample_mark) = "01:15".
Proof. reflexivity. Qed.
